(** * Asset-Radar ETL engine (scrape.py): embedding and verified properties

    The development follows the layout of [src/scrape.py]:

    - a model of the Python values that [json.loads] produces for a feature
      (scalars, attribute and geometry mappings) and of the built-ins the
      script applies to them ([int], [float], [str], [round], truthiness,
      [datetime.fromtimestamp]);
    - section 2 of the script: [FIELD_MAP] and [MONTH_NAME_TO_NUM];
    - section 3 and 4: [http_get_json], [discover_fields],
      [build_where_clauses], [fetch_features] with its pagination loop, its
      strategy loop and the in-memory sort;
    - section 5: [_first_of], [parse_month], [parse_date_string],
      [process_features];
    - section 6 and 7: [save_json] and [main], over the files of the output
      directory.

    Modelling conventions.

    - An exception is a value of [exn]; a computation that may raise has type
      [result A].  [try_except] is a [try ... except (E1, E2)] block.
    - A Python [int] is a [Z].  A Python [float] is a [pyfloat]: an infinity
      or the rational number the double denotes.  Every operation whose
      result IEEE-754 rounds goes through [rn], the round-to-nearest
      function of binary64, which is a parameter of the development; the
      two facts about it that some proofs use are stated as hypotheses where
      they are needed.  The token [NaN], which RFC 8259 excludes, is not a
      value of the model; infinities are, because an ordinary literal such as
      [1e999] decodes to one.
    - A string is a [string] with one [ascii] per character; the white space
      that [str.strip] and [int] skip is the ASCII white space.
    - [float(str)] and [repr(float)] are parameters ([float_of_str],
      [float_repr]): no result depends on what they compute.
    - The clock is read through [now_year], [cutoff_year], [cutoff_month]
      and [cutoff_ms]: the components of [now_utc()] and of
      [now_utc() - timedelta(days=TIME_WINDOW_MONTHS * 30)].
    - The remote service is a state machine [transport]: one step per HTTP
      attempt.  [print] and [time.sleep] have no observable effect on the
      results and are left out. *)

From Stdlib Require Import ZArith QArith Qround Qabs Qcanon Lqa Lia.
From Stdlib Require Import String Ascii List Permutation Sorted.
From Stdlib Require Import DecimalString DecimalPos DecimalZ.
From stdpp Require Import gmap strings list fin_maps.

(** ** Exceptions and the error monad *)

Inductive exn : Type :=
  | TypeError
  | ValueError
  | OverflowError
  | IndexError
  | OSError        (* also urllib.error.URLError and HTTPError, its subclasses *)
  | RuntimeError.

Inductive result (A : Type) : Type :=
  | Ok (a : A)
  | Raise (e : exn).
Arguments Ok {A} a.
Arguments Raise {A} e.

#[global] Instance result_ret : MRet result := @Ok.
#[global] Instance result_bind : MBind result :=
  fun A B f m => match m with Ok a => f a | Raise e => Raise e end.
#[global] Instance result_fmap : FMap result :=
  fun A B f m => match m with Ok a => Ok (f a) | Raise e => Raise e end.

Definition exn_eqb (a b : exn) : bool :=
  match a, b with
  | TypeError, TypeError | ValueError, ValueError
  | OverflowError, OverflowError | IndexError, IndexError
  | OSError, OSError | RuntimeError, RuntimeError => true
  | _, _ => false
  end.

Definition exn_in (e : exn) (l : list exn) : bool := existsb (exn_eqb e) l.

(** [try: body except (caught): handler] *)
Definition try_except {A} (body : result A) (caught : list exn)
    (handler : result A) : result A :=
  match body with
  | Ok a => Ok a
  | Raise e => if exn_in e caught then handler else Raise e
  end.

Definition is_ok {A} (r : result A) : bool :=
  match r with Ok _ => true | Raise _ => false end.

(** ** Python floats *)

Inductive pyfloat : Type :=
  | FInf (negative : bool)
  | FFin (q : Q).

(** [a <= b], [a == b] and [a < b] on floats. *)
Definition fleb (a b : pyfloat) : bool :=
  match a, b with
  | FInf true, _ => true
  | _, FInf false => true
  | FFin x, FFin y => Qle_bool x y
  | _, _ => false
  end.

Definition feqb (a b : pyfloat) : bool :=
  match a, b with
  | FInf s, FInf s' => Bool.eqb s s'
  | FFin x, FFin y => Qeq_bool x y
  | _, _ => false
  end.

Definition fltb (a b : pyfloat) : bool := negb (fleb b a).

Definition fneg (a : pyfloat) : pyfloat :=
  match a with
  | FInf s => FInf (negb s)
  | FFin q => FFin (- q)
  end.

(** Rounding of a rational to the nearest integer, ties to even: the rounding
    of [round] and of [datetime]'s microseconds. *)
Definition round_half_even (q : Q) : Z :=
  let f := Qfloor q in
  let r := (q - inject_Z f)%Q in
  match (r ?= 1 # 2)%Q with
  | Lt => f
  | Gt => (f + 1)%Z
  | Eq => if Z.even f then f else (f + 1)%Z
  end.

(** Truncation toward zero: [int(x)] on a finite float. *)
Definition Qtrunc (q : Q) : Z :=
  if Qle_bool 0 q then Qfloor q else Qceiling q.

(** ** Numbers: [int] or [float] *)

Inductive pynum : Type :=
  | NInt (z : Z)
  | NFloat (f : pyfloat).

(** The value of a number as an extended rational; Python compares an [int]
    with a [float] exactly. *)
Definition num_value (n : pynum) : pyfloat :=
  match n with
  | NInt z => FFin (inject_Z z)
  | NFloat f => f
  end.

Definition num_ltb (a b : pynum) : bool := fltb (num_value a) (num_value b).
Definition num_leb (a b : pynum) : bool := fleb (num_value a) (num_value b).

Definition num_neg (n : pynum) : pynum :=
  match n with
  | NInt z => NInt (- z)
  | NFloat f => NFloat (fneg f)
  end.

(** ** Scalars: the values of a feature's attributes *)

Inductive scalar : Type :=
  | SNone
  | SBool (b : bool)
  | SInt (z : Z)
  | SFloat (f : pyfloat)
  | SStr (s : string).

Definition is_none (v : scalar) : bool :=
  match v with SNone => true | _ => false end.

(** [bool(v)] *)
Definition py_truthy (v : scalar) : bool :=
  match v with
  | SNone => false
  | SBool b => b
  | SInt z => negb (z =? 0)%Z
  | SFloat (FInf _) => true
  | SFloat (FFin q) => negb (Qeq_bool q 0)
  | SStr s => negb (String.eqb s "")
  end.

(** [a or b] *)
Definition py_or (a b : scalar) : scalar := if py_truthy a then a else b.

(** [isinstance(v, (int, float))]; [bool] is a subclass of [int]. *)
Definition as_number (v : scalar) : option pynum :=
  match v with
  | SBool b => Some (NInt (Z.b2z b))
  | SInt z => Some (NInt z)
  | SFloat f => Some (NFloat f)
  | SNone | SStr _ => None
  end.

(** ** Strings *)

Definition string_of_Z (z : Z) : string := NilZero.string_of_int (Z.to_int z).

(** White space in the sense of [str.isspace], restricted to ASCII: what
    [str.strip] removes. *)
Definition is_space (c : ascii) : bool :=
  let n := nat_of_ascii c in
  ((9 <=? n) && (n <=? 13)) || ((28 <=? n) && (n <=? 32)).

(** The white space that [int] skips around the digits. *)
Definition is_int_space (c : ascii) : bool :=
  let n := nat_of_ascii c in
  ((9 <=? n) && (n <=? 13)) || (n =? 32).

Fixpoint lstrip (space : ascii -> bool) (s : string) : string :=
  match s with
  | EmptyString => EmptyString
  | String c s' => if space c then lstrip space s' else s
  end.

Fixpoint rstrip (space : ascii -> bool) (s : string) : string :=
  match s with
  | EmptyString => EmptyString
  | String c s' =>
      match rstrip space s' with
      | EmptyString => if space c then EmptyString else String c EmptyString
      | t => String c t
      end
  end.

(** [s.strip()] *)
Definition strip (s : string) : string := rstrip is_space (lstrip is_space s).

Fixpoint zeros (n : nat) : string :=
  match n with
  | O => EmptyString
  | S n' => String "0" (zeros n')
  end.

(** [format(z, "0<w>d")]: the sign counts in the width. *)
Definition format_0d (w : nat) (z : Z) : string :=
  let digits := string_of_Z (Z.abs z) in
  let sign := if (z <? 0)%Z then "-" else "" in
  sign +:+ zeros (w - String.length sign - String.length digits) +:+ digits.

Definition is_digit (c : ascii) : bool :=
  let n := nat_of_ascii c in (48 <=? n) && (n <=? 57).

Definition digit_value (c : ascii) : Z := Z.of_nat (nat_of_ascii c) - 48.

(** Digits with single underscores between them, as [int] accepts them. *)
Fixpoint digits_value (acc : Z) (after_digit : bool) (s : string)
    : option Z :=
  match s with
  | EmptyString => if after_digit then Some acc else None
  | String c s' =>
      if is_digit c then digits_value (10 * acc + digit_value c) true s'
      else if Ascii.eqb c "_" then
        if after_digit then digits_value acc false s' else None
      else None
  end.

(** [int(s)] for a string, base 10. *)
Definition int_of_str (s : string) : option Z :=
  match rstrip is_int_space (lstrip is_int_space s) with
  | String "-" s' => Z.opp <$> digits_value 0 false s'
  | String "+" s' => digits_value 0 false s'
  | s' => digits_value 0 false s'
  end.

(** ** 1. Configuration *)

Definition ENDPOINTS : gmap string string :=
  list_to_map
    [ ("auto",
       "https://services.arcgis.com/S9th0jAJ7bqgIRjw/arcgis/rest/services/"
       +:+ "Auto_Theft_Open_Data/FeatureServer/0/query");
      ("bike",
       "https://services.arcgis.com/S9th0jAJ7bqgIRjw/arcgis/rest/services/"
       +:+ "Bicycle_Thefts_Open_Data/FeatureServer/0/query") ].

Definition TIME_WINDOW_MONTHS : Z := 6.
Definition PAGE_SIZE : Z := 2000.
Definition MAX_RETRIES : nat := 3.

(** ** 2. Field maps *)

Definition FIELD_MAP : gmap string (list string) :=
  list_to_map
    [ ("id_fields",            ["EVENT_UNIQUE_ID"; "OBJECTID"]);
      ("date_field",           ["OCC_DATE"; "REPORT_DATE"]);
      ("year_field",           ["OCC_YEAR"]);
      ("month_field",          ["OCC_MONTH"]);
      ("day_field",            ["OCC_DAY"; "OCC_DOW"]);
      ("hour_field",           ["OCC_HOUR"]);
      ("neighbourhood_fields", ["NEIGHBOURHOOD_158"; "NEIGHBOURHOOD_140";
                                "HOOD_158"; "NEIGHBOURHOOD"]);
      ("premise_fields",       ["PREMISES_TYPE"; "PREMISE_TYPE"]);
      ("lat_fields",           ["LAT_WGS84"; "Y"]);
      ("lng_fields",           ["LONG_WGS84"; "X"]);
      ("status_fields",        ["STATUS"]);
      ("division_fields",      ["DIVISION"]);
      ("location_fields",      ["LOCATION_TYPE"]) ].

Definition MONTH_NAME_TO_NUM : gmap string Z :=
  list_to_map
    [ ("January", 1); ("February", 2); ("March", 3); ("April", 4);
      ("May", 5); ("June", 6); ("July", 7); ("August", 8);
      ("September", 9); ("October", 10); ("November", 11);
      ("December", 12) ]%Z.

(** ** Features *)

(** A raw feature: the "attributes" mapping and the "geometry" mapping, both
    from strings to scalars.  A missing "attributes" is the empty mapping,
    the default of [feature.get]; a missing or null "geometry" is the empty
    mapping, which the script treats the same way (both are falsy). *)
Record feature : Type := Feature {
  attributes : gmap string scalar;
  geometry : gmap string scalar
}.

(** [d.get(k)] *)
Definition dict_get (d : gmap string scalar) (k : string) : scalar :=
  default SNone (d !! k).

(** [d.get(k, dflt)] *)
Definition dict_get_or (d : gmap string scalar) (k : string) (dflt : scalar)
    : scalar :=
  default dflt (d !! k).

(** [bool(d)] for a mapping *)
Definition dict_truthy (d : gmap string scalar) : bool :=
  negb (bool_decide (d = ∅)).

(** ** Calendar *)

(** The proleptic Gregorian date of a day count since 1970-01-01, as
    [gmtime] computes it. *)
Definition civil_from_days (days : Z) : Z * Z * Z :=
  let z := (days + 719468)%Z in
  let era := (z / 146097)%Z in
  let doe := (z - era * 146097)%Z in
  let yoe := ((doe - doe / 1460 + doe / 36524 - doe / 146096) / 365)%Z in
  let doy := (doe - (365 * yoe + yoe / 4 - yoe / 100))%Z in
  let mp := ((5 * doy + 2) / 153)%Z in
  let d := (doy - (153 * mp + 2) / 5 + 1)%Z in
  let m := (if (mp <? 10)%Z then mp + 3 else mp - 9)%Z in
  let y := (yoe + era * 400 + (if (m <=? 2)%Z then 1 else 0))%Z in
  (y, m, d).

(** [dt.strftime("%Y-%m-%d")] *)
Definition strftime_ymd (dt : Z * Z * Z) : string :=
  let '(y, m, d) := dt in
  format_0d 4 y +:+ "-" +:+ format_0d 2 m +:+ "-" +:+ format_0d 2 d.


(** ** The runtime and the environment *)

Section Pipeline.

(** Round-to-nearest of binary64: the double nearest to a rational, an
    infinity when the rational is beyond the largest double. *)
Variable rn : Q -> pyfloat.

(** What some proofs use of round-to-nearest: it is monotone, and it is the
    identity on the integers that a double represents exactly. *)
Hypothesis rn_mono :
  forall a b : Q, (a <= b)%Q -> fleb (rn a) (rn b) = true.
Hypothesis rn_int :
  forall (q : Q) (z : Z),
    (q == inject_Z z)%Q -> (Z.abs z <= 2 ^ 53)%Z -> rn q = FFin (inject_Z z).

(** [float(s)] for a string; [None] is [ValueError].  The only use is the
    coercion of the coordinates, where a string that denotes NaN has the
    effect of a rejected one: the feature is counted as bad coordinates. *)
Variable float_of_str : string -> option pyfloat.

(** [repr(x)] for a float. *)
Variable float_repr : pyfloat -> string.

(** [now_utc().year], and the year, the month and the epoch milliseconds of
    [now_utc() - timedelta(days=TIME_WINDOW_MONTHS * 30)]. *)
Variables now_year cutoff_year cutoff_month cutoff_ms : Z.

(** *** Built-in conversions *)

(** The conversion of an [int] to a [float]: [OverflowError] when the
    nearest double is an infinity. *)
Definition float_of_int (z : Z) : result Q :=
  match rn (inject_Z z) with
  | FFin q => Ok q
  | FInf _ => Raise OverflowError
  end.

(** [int(v)] *)
Definition py_int (v : scalar) : result Z :=
  match v with
  | SNone => Raise TypeError
  | SBool b => Ok (Z.b2z b)
  | SInt z => Ok z
  | SFloat (FInf _) => Raise OverflowError
  | SFloat (FFin q) => Ok (Qtrunc q)
  | SStr s =>
      match int_of_str s with
      | Some z => Ok z
      | None => Raise ValueError
      end
  end.

(** [float(v)] *)
Definition py_float (v : scalar) : result pyfloat :=
  match v with
  | SNone => Raise TypeError
  | SBool b => Ok (FFin (inject_Z (Z.b2z b)))
  | SInt z => FFin <$> float_of_int z
  | SFloat f => Ok f
  | SStr s =>
      match float_of_str s with
      | Some f => Ok f
      | None => Raise ValueError
      end
  end.

(** [str(v)] *)
Definition py_str (v : scalar) : string :=
  match v with
  | SNone => "None"
  | SBool true => "True"
  | SBool false => "False"
  | SInt z => string_of_Z z
  | SFloat f => float_repr f
  | SStr s => s
  end.

(** [round(x, 6)]: the decimal rounding of the exact value, ties to even,
    converted back to the nearest double. *)
Definition round6 (x : pyfloat) : pyfloat :=
  match x with
  | FInf s => FInf s
  | FFin q =>
      rn (inject_Z (round_half_even (q * inject_Z 1000000)) / inject_Z 1000000)
  end.

(** [n / 1000.0]: the [int] operand is converted first. *)
Definition num_div_1000 (n : pynum) : result pyfloat :=
  x ← match n with NInt z => FFin <$> float_of_int z | NFloat f => Ok f end;
  match x with
  | FInf s => Ok (FInf s)
  | FFin q => Ok (rn (q / inject_Z 1000))
  end.

(** [datetime.fromtimestamp(t, tz=timezone.utc)], as a date.  The seconds
    and the microseconds are split as CPython does, the microseconds rounded
    half to even; a count of seconds outside the 64-bit [time_t] is
    [OverflowError]; a year outside 1..9999 is [ValueError] (or [OSError]
    when [gmtime] already fails, which every caller treats alike). *)
Definition fromtimestamp_utc (t : pyfloat) : result (Z * Z * Z) :=
  match t with
  | FInf _ => Raise OverflowError
  | FFin q =>
      let intpart := Qtrunc q in
      match rn ((q - inject_Z intpart) * inject_Z 1000000) with
      | FInf _ => Raise OverflowError
      | FFin u =>
          let us := round_half_even u in
          let secs :=
            (if (1000000 <=? us) then intpart + 1
             else if (us <? 0) then intpart - 1
             else intpart)%Z in
          if ((- 2 ^ 63 <=? secs) && (secs <? 2 ^ 63))%Z then
            let '(y, m, d) := civil_from_days (secs / 86400) in
            if ((1 <=? y) && (y <=? 9999))%Z then Ok (y, m, d)
            else Raise ValueError
          else Raise OverflowError
      end
  end.

(** ** 3. HTTP GET with retries *)

(** A request: the URL and the query parameters, in the order of the
    dictionary literal. *)
Record request : Type := Request {
  req_url : string;
  req_params : list (string * string)
}.

(** The decoded body of a response, a JSON object: whether it has an "error"
    member (an object, as the service sends it), its "features" (absent is
    empty), its "exceededTransferLimit" member and the "name" of each entry
    of its "fields" ([None] for an entry without a name). *)
Record response : Type := Response {
  has_error : bool;
  features : list feature;
  exceededTransferLimit : option scalar;
  fields : list (option string)
}.

(** What one attempt yields: a transport failure ([URLError], [HTTPError],
    [OSError]); a body that does not decode to a JSON object, which is a
    [ValueError] of [json.loads] or an exception at the first use of the
    value, in both cases without a retry and caught by the same handlers; or
    a decoded body.

    [NotJson] stands for every attempt that ends the call without a retry
    and without a body of the shape above: [decode] or [json.loads] raising
    [ValueError]; a JSON value that is not an object ([TypeError] at
    ["error" in data] for null or a number, [AttributeError] at the caller's
    first [data.get] for an array or a string); an "error" member that is
    not an object ([AttributeError]); [http.client.IncompleteRead].  The
    model raises [ValueError] for all of them.  Every caller handles them
    with [except Exception], alike; no statement below depends on which of
    these exceptions it is. *)
Inductive attempt : Type :=
  | TransportFailure
  | NotJson
  | Body (data : response).

(** The remote service and the network. *)
Variable St : Type.
Variable transport : St -> request -> St * attempt.

(** The retry loop of [http_get_json], with [remaining] attempts left:
    [attempt < MAX_RETRIES] is [remaining <> 0] after this attempt.  The
    loop starts with [MAX_RETRIES] = 3 attempts, so that its first case is
    never reached. *)
Fixpoint http_get_json_loop (remaining : nat) (req : request) (st : St)
    : St * result response :=
  match remaining with
  | O => (st, Raise TypeError)
  | S remaining' =>
      let '(st', a) := transport st req in
      match a with
      | Body data =>
          if has_error data then
            match remaining' with
            | O => (st', Raise RuntimeError)
            | S _ => http_get_json_loop remaining' req st'
            end
          else (st', Ok data)
      | TransportFailure =>
          match remaining' with
          | O => (st', Raise OSError)
          | S _ => http_get_json_loop remaining' req st'
          end
      | NotJson => (st', Raise ValueError)
      end
  end.

Definition http_get_json (url : string) (params : list (string * string))
    (st : St) : St * result response :=
  http_get_json_loop MAX_RETRIES (Request url params) st.

Definition discover_fields (endpoint_url : string) (st : St)
    : St * list string :=
  let params :=
    [ ("where", "1=1"); ("outFields", "*"); ("f", "json");
      ("resultRecordCount", "1"); ("resultOffset", "0") ] in
  let '(st', r) := http_get_json endpoint_url params st in
  match r with
  | Raise _ => (st', [])
  | Ok data =>
      match features data with
      | f :: _ => (st', (map_to_list (attributes f)).*1)
      | [] =>
          match mapM (fun name : option string => name) (fields data) with
          | Some names => (st', names)
          | None => (st', [])
          end
      end
  end.

(** ** 4. EXTRACT *)

Definition build_where_clauses (theft_type : string)
    (available_fields : list string) : list (string * string) :=
  let has_occ_year := bool_decide ("OCC_YEAR" ∈ available_fields) in
  let has_occ_date := bool_decide ("OCC_DATE" ∈ available_fields) in
  let has_report_date := bool_decide ("REPORT_DATE" ∈ available_fields) in
  (if has_occ_year then
     [ ("OCC_YEAR >= " +:+ string_of_Z cutoff_year,
        "year >= " +:+ string_of_Z cutoff_year) ]
   else [])
  ++ (if has_occ_date then
        [ ("OCC_DATE >= " +:+ string_of_Z cutoff_ms,
           "OCC_DATE epoch >= " +:+ string_of_Z cutoff_ms) ]
      else [])
  ++ (if has_report_date then
        [ ("REPORT_DATE >= " +:+ string_of_Z cutoff_ms,
           "REPORT_DATE epoch >= " +:+ string_of_Z cutoff_ms) ]
      else [])
  ++ [ ("1=1", "unfiltered (all records)") ].

Definition page_params (where_clause : string) (offset : Z)
    : list (string * string) :=
  [ ("where", where_clause); ("outFields", "*"); ("outSR", "4326");
    ("f", "json"); ("resultRecordCount", string_of_Z PAGE_SIZE);
    ("resultOffset", string_of_Z offset) ].

(** [not data.get("exceededTransferLimit", False)] *)
Definition no_more_flag (data : response) : bool :=
  negb (py_truthy (default (SBool false) (exceededTransferLimit data))).

(** How the [while True] loop of one strategy ends: by a [break], or by an
    exception that leaves the loop. *)
Inductive loop_exit : Type :=
  | Break
  | Raised (e : exn).

(** The [while True] loop.  It returns the service state, the final value
    of [all_features] and the way the loop was left; [None] when [fuel]
    iterations were not enough. *)
Fixpoint paginate_loop (fuel : nat) (endpoint_url where_clause : string)
    (offset : Z) (all_features : list feature) (st : St)
    : option (St * list feature * loop_exit) :=
  match fuel with
  | O => None
  | S fuel' =>
      let '(st', r) :=
        http_get_json endpoint_url (page_params where_clause offset) st in
      match r with
      | Raise e => Some (st', all_features, Raised e)
      | Ok data =>
          let count := Z.of_nat (length (features data)) in
          if (count =? 0)%Z then Some (st', all_features, Break)
          else
            let all_features := all_features ++ features data in
            let offset := (offset + PAGE_SIZE)%Z in
            if (100000 <=? Z.of_nat (length all_features))%Z then
              Some (st', all_features, Break)
            else if no_more_flag data && (count <? PAGE_SIZE)%Z then
              Some (st', all_features, Break)
            else
              paginate_loop fuel' endpoint_url where_clause offset
                all_features st'
      end
  end.

(** Every iteration that does not leave the loop adds a feature and leaves
    fewer than 100000 of them, so 100001 iterations are enough. *)
Definition pagination_fuel : nat := Z.to_nat 100001.

(** One strategy: [all_features = []; offset = 0] and the loop. *)
Definition paginate (endpoint_url where_clause : string) (st : St)
    : St * list feature * loop_exit :=
  default (st, [], Break)
    (paginate_loop pagination_fuel endpoint_url where_clause 0 [] st).

(** The [for] loop over the strategies.  [all_features] is the variable of
    that name: it is reset when a strategy starts, and what the last
    strategy that ran left in it is what the code after the loop sees. *)
Fixpoint try_strategies (endpoint_url : string)
    (where_strategies : list (string * string)) (all_features : list feature)
    (st : St) : St * list feature :=
  match where_strategies with
  | [] => (st, all_features)
  | (where_clause, description) :: rest =>
      let '(st', all_features, how) := paginate endpoint_url where_clause st in
      match how with
      | Break =>
          if (0 <? length all_features)%nat then (st', all_features)
          else try_strategies endpoint_url rest all_features st'
      | Raised _ => try_strategies endpoint_url rest all_features st'
      end
  end.

(** *** The sort key *)

(** [x * 100000000] for a number. *)
Definition num_mul_1e8 (n : pynum) : pynum :=
  match n with
  | NInt z => NInt (z * 100000000)
  | NFloat (FInf s) => NFloat (FInf s)
  | NFloat (FFin q) => NFloat (rn (q * inject_Z 100000000))
  end.

(** [x + z] for a number [x] and an [int] [z]. *)
Definition num_add_int (n : pynum) (z : Z) : result pynum :=
  match n with
  | NInt x => Ok (NInt (x + z))
  | NFloat (FInf s) => _ ← float_of_int z; Ok (NFloat (FInf s))
  | NFloat (FFin q) => y ← float_of_int z; Ok (NFloat (rn (q + y)))
  end.

Definition sort_key (f : feature) : result pynum :=
  let attrs := attributes f in
  let occ_date :=
    py_or (dict_get attrs "OCC_DATE") (dict_get attrs "REPORT_DATE") in
  let epoch :=
    match as_number occ_date with
    | Some n => if num_ltb (NInt 1000000000) n then Some n else None
    | None => None
    end in
  match epoch with
  | Some n => Ok (num_neg n)
  | None =>
      let year := py_or (dict_get_or attrs "OCC_YEAR" (SInt 0)) (SInt 0) in
      let month := dict_get_or attrs "OCC_MONTH" (SStr "") in
      let month :=
        match month with
        | SStr s => SInt (default 0%Z (MONTH_NAME_TO_NUM !! s))
        | _ => month
        end in
      let day := py_or (dict_get_or attrs "OCC_DAY" (SInt 0)) (SInt 0) in
      let hour := py_or (dict_get_or attrs "OCC_HOUR" (SInt 0)) (SInt 0) in
      match as_number year with
      | None =>
          (* a string times an int is a string; adding an int to it fails *)
          _ ← py_int (py_or month (SInt 0)); Raise TypeError
      | Some y =>
          m ← py_int (py_or month (SInt 0));
          s1 ← num_add_int (num_mul_1e8 y) (m * 1000000);
          d ← py_int (py_or day (SInt 0));
          s2 ← num_add_int s1 (d * 10000);
          h ← py_int (py_or hour (SInt 0));
          s3 ← num_add_int s2 (h * 100);
          Ok (num_neg s3)
      end
  end.

(** [list.sort(key=sort_key)]: the keys are computed first, in order; the
    sort is stable and compares keys with [<]. *)
Fixpoint with_keys (l : list feature) : result (list (pynum * feature)) :=
  match l with
  | [] => Ok []
  | f :: rest =>
      k ← sort_key f;
      krest ← with_keys rest;
      Ok ((k, f) :: krest)
  end.

Fixpoint insert_by_key (x : pynum * feature) (l : list (pynum * feature))
    : list (pynum * feature) :=
  match l with
  | [] => [x]
  | y :: l' =>
      if num_ltb y.1 x.1 then y :: insert_by_key x l' else x :: y :: l'
  end.

Definition stable_sort (l : list (pynum * feature))
    : list (pynum * feature) :=
  foldr insert_by_key [] l.

Definition sort_features (l : list feature) : result (list feature) :=
  kl ← with_keys l;
  Ok ((stable_sort kl).*2).

(** The strategy loop and what follows it. *)
Definition fetch_with (endpoint_url : string)
    (where_strategies : list (string * string)) (st : St)
    : St * result (list feature) :=
  let '(st', all_features) :=
    try_strategies endpoint_url where_strategies [] st in
  match all_features with
  | [] => (st', Ok [])
  | _ => (st', sort_features all_features)
  end.

(** [fetch_features].  Of its [print]s only the second can fail:
    [endpoint_url.split('services/')[1]] is an [IndexError] when the URL
    does not contain "services/". *)
Definition fetch_features (endpoint_url theft_type : string) (st : St)
    : St * result (list feature) :=
  match index 0 "services/" endpoint_url with
  | None => (st, Raise IndexError)
  | Some _ =>
      let '(st1, available_fields) := discover_fields endpoint_url st in
      let available_fields :=
        match available_fields with
        | [] => ["OCC_YEAR"; "OCC_DATE"; "REPORT_DATE"]
        | _ => available_fields
        end in
      let where_strategies :=
        build_where_clauses theft_type available_fields in
      fetch_with endpoint_url where_strategies st1
  end.

(** ** 5. TRANSFORM *)

Fixpoint _first_of (attrs : gmap string scalar) (field_names : list string)
    (dflt : scalar) : scalar :=
  match field_names with
  | [] => dflt
  | name :: rest =>
      let val := dict_get attrs name in
      if is_none val then _first_of attrs rest dflt else val
  end.

Definition parse_month (raw_month : scalar) : result Z :=
  match raw_month with
  | SBool _ | SInt _ | SFloat _ => py_int raw_month
  | SStr s => Ok (default 1%Z (MONTH_NAME_TO_NUM !! s))
  | SNone => Ok 1%Z
  end.

(** [raw_date[:10]] when [raw_date] is a string of at least ten
    characters. *)
Definition str_prefix10 (raw_date : scalar) : option string :=
  match raw_date with
  | SStr s =>
      if (10 <=? String.length s)%nat then Some (substring 0 10 s) else None
  | _ => None
  end.

Definition parse_date_string (raw_date year month day : scalar)
    : result string :=
  decoded ←
    match as_number raw_date with
    | Some n =>
        if num_ltb (NInt 1000000000) n then
          try_except
            (t ← num_div_1000 n;
             dt ← fromtimestamp_utc t;
             Ok (Some (strftime_ymd dt)))
            [OSError; ValueError]
            (Ok None)
        else Ok None
    | None => Ok None
    end;
  match decoded with
  | Some s => Ok s
  | None =>
      match str_prefix10 raw_date with
      | Some s => Ok s
      | None =>
          try_except
            (y ← py_int year; m ← py_int month; d ← py_int day;
             Ok (format_0d 4 y +:+ "-" +:+ format_0d 2 m +:+ "-"
                 +:+ format_0d 2 d))
            [TypeError; ValueError]
            (Ok (string_of_Z now_year +:+ "-01-01"))
      end
  end.

(** The output unit. *)
Record clean_record : Type := CleanRecord {
  r_id : string;
  r_type : string;
  r_date : string;
  r_year : Z;
  r_month : Z;
  r_day : Z;
  r_hour : Z;
  r_neighbourhood : string;
  r_premiseType : string;
  r_lat : pyfloat;
  r_lng : pyfloat;
  r_status : string
}.

(** The local variables of [process_features] that outlive an iteration:
    the output list and the three counters of the final report. *)
Record run_state : Type := RunState {
  clean_records : list clean_record;
  discarded_coords : nat;
  discarded_date : nat;
  discarded_other : nat
}.

Definition initial_state : run_state := RunState [] 0 0 0.

Definition skip_bad_coords (s : run_state) : run_state :=
  RunState (clean_records s) (S (discarded_coords s)) (discarded_date s)
    (discarded_other s).

Definition skip_out_of_window (s : run_state) : run_state :=
  RunState (clean_records s) (discarded_coords s) (S (discarded_date s))
    (discarded_other s).

Definition emit (s : run_state) (r : clean_record) : run_state :=
  RunState (clean_records s ++ [r]) (discarded_coords s) (discarded_date s)
    (discarded_other s).

(** The coordinates as found: the geometry pair, else the attribute
    fields. *)
Definition extract_coords (f : feature) : scalar * scalar :=
  let lat :=
    if dict_truthy (geometry f) then dict_get (geometry f) "y" else SNone in
  let lng :=
    if dict_truthy (geometry f) then dict_get (geometry f) "x" else SNone in
  if is_none lat || is_none lng then
    (_first_of (attributes f) (FIELD_MAP !!! "lat_fields") SNone,
     _first_of (attributes f) (FIELD_MAP !!! "lng_fields") SNone)
  else (lat, lng).

(** The coercion to floats, with its [except (TypeError, ValueError)]. *)
Definition coerce_coords (c : scalar * scalar) : result (pyfloat * pyfloat) :=
  try_except
    (lat ← (if is_none c.1 then Ok (FFin 0) else py_float c.1);
     lng ← (if is_none c.2 then Ok (FFin 0) else py_float c.2);
     Ok (lat, lng))
    [TypeError; ValueError]
    (Ok (FFin 0, FFin 0)).

Definition resolve_coords (f : feature) : result (pyfloat * pyfloat) :=
  coerce_coords (extract_coords f).

(** [41.0 <= lat <= 57.0 and -95.0 <= lng <= -73.0] *)
Definition in_box (lat lng : pyfloat) : bool :=
  fleb (FFin 41) lat && fleb lat (FFin 57)
  && fleb (FFin (-95)) lng && fleb lng (FFin (-73)).

(** [lat == 0.0 and lng == 0.0] *)
Definition both_zero (lat lng : pyfloat) : bool :=
  feqb lat (FFin 0) && feqb lng (FFin 0).

(** The body of the [try] that enforces the window: [true] when the record
    is older than the cutoff. *)
Definition before_cutoff (year : scalar) (month : Z) : result bool :=
  record_year ← (if py_truthy year then py_int year else Ok 0%Z);
  record_month ←
    (if py_truthy (SInt month) then py_int (SInt month) else Ok 0%Z);
  let record_ym := (record_year * 100 + record_month)%Z in
  let cutoff_ym := (cutoff_year * 100 + cutoff_month)%Z in
  Ok (record_ym <? cutoff_ym)%Z.

(** One iteration of the loop of [process_features]. *)
Definition process_feature (theft_type : string) (s : run_state)
    (f : feature) : result run_state :=
  let attrs := attributes f in
  '(lat, lng) ← resolve_coords f;
  if both_zero lat lng then Ok (skip_bad_coords s)
  else if negb (in_box lat lng) then Ok (skip_bad_coords s)
  else
    let record_id :=
      _first_of attrs (FIELD_MAP !!! "id_fields")
        (SStr (string_of_Z (Z.of_nat (length (clean_records s))))) in
    let raw_date := _first_of attrs (FIELD_MAP !!! "date_field") (SStr "") in
    let year := _first_of attrs (FIELD_MAP !!! "year_field") (SInt now_year) in
    let raw_month := _first_of attrs (FIELD_MAP !!! "month_field") (SInt 1) in
    let day := _first_of attrs (FIELD_MAP !!! "day_field") (SInt 1) in
    let hour := _first_of attrs (FIELD_MAP !!! "hour_field") (SInt 12) in
    let neighbourhood :=
      _first_of attrs (FIELD_MAP !!! "neighbourhood_fields") (SStr "Unknown") in
    let premise_type :=
      _first_of attrs (FIELD_MAP !!! "premise_fields") (SStr "Unknown") in
    let status :=
      _first_of attrs (FIELD_MAP !!! "status_fields") (SStr "Unknown") in
    month ← parse_month raw_month;
    date_str ← parse_date_string raw_date year (SInt month) day;
    old ← try_except (before_cutoff year month) [TypeError; ValueError]
            (Ok false);
    if old : bool then Ok (skip_out_of_window s)
    else
      y ← (if py_truthy year then py_int year else Ok now_year);
      d ← (if py_truthy day then py_int day else Ok 1%Z);
      h ← (if py_truthy hour then py_int hour else Ok 0%Z);
      Ok (emit s
            {| r_id := theft_type +:+ "-" +:+ py_str record_id;
               r_type := theft_type;
               r_date := date_str;
               r_year := y;
               r_month := month;
               r_day := d;
               r_hour := h;
               r_neighbourhood := strip (py_str neighbourhood);
               r_premiseType := strip (py_str premise_type);
               r_lat := round6 lat;
               r_lng := round6 lng;
               r_status := strip (py_str status) |}).

(** The loop over the raw features, from a given state. *)
Fixpoint process_from (theft_type : string) (s : run_state)
    (raw_features : list feature) : result run_state :=
  match raw_features with
  | [] => Ok s
  | f :: rest =>
      s' ← process_feature theft_type s f;
      process_from theft_type s' rest
  end.

(** [process_features] returns [clean_records] of the final state; the
    counters are what its last [print] reports. *)
Definition process_features (raw_features : list feature)
    (theft_type : string) : result run_state :=
  process_from theft_type initial_state raw_features.

(** ** 6. LOAD *)

(** [os.path.join("public", "data")] *)
Definition OUTPUT_DIR : string := "public/data".

(** The files under [OUTPUT_DIR], by path: the content of a file is the
    array of records that [json.dump] wrote to it.  The file system is one
    that accepts the write: [os.makedirs] and [open] do not fail. *)
Definition save_json (records : list clean_record) (filename : string)
    (files : gmap string (list clean_record))
    : gmap string (list clean_record) :=
  <[OUTPUT_DIR +:+ "/" +:+ filename := records]> files.

(** ** 7. MAIN *)

(** [ENDPOINTS.items()], in the order of the dictionary literal. *)
Definition ENDPOINT_ITEMS : list (string * string) :=
  [ ("auto",
     "https://services.arcgis.com/S9th0jAJ7bqgIRjw/arcgis/rest/services/"
     +:+ "Auto_Theft_Open_Data/FeatureServer/0/query");
    ("bike",
     "https://services.arcgis.com/S9th0jAJ7bqgIRjw/arcgis/rest/services/"
     +:+ "Bicycle_Thefts_Open_Data/FeatureServer/0/query") ].

(** What [main] carries from one category to the next: the service, the
    files and [total_records]. *)
Record main_state : Type := MainState {
  service : St;
  files : gmap string (list clean_record);
  total_records : nat
}.

(** The body of the loop of [main]: extract, transform and load in a [try],
    and an empty file for the category when any of them raises. *)
Definition run_category (ms : main_state) (item : string * string)
    : main_state :=
  let '(theft_type, endpoint_url) := item in
  let filename := theft_type +:+ "_thefts.json" in
  let '(st', fetched) := fetch_features endpoint_url theft_type (service ms) in
  match raw_features ← fetched; process_features raw_features theft_type with
  | Ok s =>
      MainState st' (save_json (clean_records s) filename (files ms))
        (total_records ms + length (clean_records s))
  | Raise _ =>
      MainState st' (save_json [] filename (files ms)) (total_records ms)
  end.

(** [main]: the final service state, the files, and the exit status of the
    process: 1 when [total_records] is zero. *)
Definition main (st : St) (files0 : gmap string (list clean_record))
    : St * gmap string (list clean_record) * Z :=
  let ms := foldl run_category (MainState st files0 0) ENDPOINT_ITEMS in
  (service ms, files ms, if (total_records ms =? 0)%nat then 1%Z else 0%Z).

(** ** The requests of a run *)

(** A transport that keeps the list of the requests it was sent. *)
Definition logged {S : Type} (tr : S -> request -> S * attempt)
    (sl : S * list request) (req : request) : (S * list request) * attempt :=
  let '(st', a) := tr sl.1 req in ((st', sl.2 ++ [req]), a).


(** ** Vocabulary of the statements *)



(** The fields of a feature as [process_features] resolves them; [n] is the
    number of records emitted so far. *)
Definition resolved_id (n : nat) (f : feature) : scalar :=
  _first_of (attributes f) (FIELD_MAP !!! "id_fields")
    (SStr (string_of_Z (Z.of_nat n))).
Definition resolved_date (f : feature) : scalar :=
  _first_of (attributes f) (FIELD_MAP !!! "date_field") (SStr "").
Definition resolved_year (f : feature) : scalar :=
  _first_of (attributes f) (FIELD_MAP !!! "year_field") (SInt now_year).
Definition resolved_month (f : feature) : scalar :=
  _first_of (attributes f) (FIELD_MAP !!! "month_field") (SInt 1).
Definition resolved_day (f : feature) : scalar :=
  _first_of (attributes f) (FIELD_MAP !!! "day_field") (SInt 1).
Definition resolved_hour (f : feature) : scalar :=
  _first_of (attributes f) (FIELD_MAP !!! "hour_field") (SInt 12).

(** A feature whose resolved coordinates are (0,0) or outside the box. *)
Definition bad_coords (f : feature) : bool :=
  match resolve_coords f with
  | Ok (lat, lng) => both_zero lat lng || negb (in_box lat lng)
  | Raise _ => false
  end.

(** The window test with its [except (TypeError, ValueError): pass]. *)
Definition window_check (f : feature) (month : Z) : result bool :=
  try_except (before_cutoff (resolved_year f) month) [TypeError; ValueError]
    (Ok false).

(** [r] is the record that the feature [f] becomes when [n] records were
    emitted before it. *)
Definition emitted (theft_type : string) (n : nat) (f : feature)
    (r : clean_record) : Prop :=
  exists lat lng,
    resolve_coords f = Ok (lat, lng)
    /\ both_zero lat lng = false /\ in_box lat lng = true
    /\ parse_month (resolved_month f) = Ok (r_month r)
    /\ parse_date_string (resolved_date f) (resolved_year f)
         (SInt (r_month r)) (resolved_day f) = Ok (r_date r)
    /\ window_check f (r_month r) = Ok false
    /\ (if py_truthy (resolved_year f) then py_int (resolved_year f)
        else Ok now_year) = Ok (r_year r)
    /\ (if py_truthy (resolved_day f) then py_int (resolved_day f)
        else Ok 1%Z) = Ok (r_day r)
    /\ (if py_truthy (resolved_hour f) then py_int (resolved_hour f)
        else Ok 0%Z) = Ok (r_hour r)
    /\ r_id r = theft_type +:+ "-" +:+ py_str (resolved_id n f)
    /\ r_type r = theft_type
    /\ r_lat r = round6 lat /\ r_lng r = round6 lng.

(** The records that a run emits for a list of features, [n] records
    having been emitted before. *)
Inductive emitted_run (theft_type : string)
    : nat -> list feature -> list clean_record -> Prop :=
  | run_done n : emitted_run theft_type n [] []
  | run_skip n f fs rs :
      emitted_run theft_type n fs rs ->
      emitted_run theft_type n (f :: fs) rs
  | run_emit n f fs r rs :
      emitted theft_type n f r ->
      emitted_run theft_type (S n) fs rs ->
      emitted_run theft_type n (f :: fs) (r :: rs).

(** The value of a key that is present with a non-null value. *)
Definition present (attrs : gmap string scalar) (k : string) : option scalar :=
  match attrs !! k with
  | Some v => if is_none v then None else Some v
  | None => None
  end.

(** [raw_date / 1000.0] when [raw_date] is numeric and greater than
    1,000,000,000: the epoch seconds that [parse_date_string] decodes. *)
Definition epoch_seconds (raw_date : scalar) : option (result pyfloat) :=
  match as_number raw_date with
  | Some n =>
      if num_ltb (NInt 1000000000) n then Some (num_div_1000 n) else None
  | None => None
  end.

(** The raw date does not decode: it is not a number greater than
    1,000,000,000, or [fromtimestamp] rejects it with one of the two
    exceptions that [parse_date_string] catches. *)
Definition undecodable (raw_date : scalar) : Prop :=
  epoch_seconds raw_date = None
  \/ exists t e, epoch_seconds raw_date = Some (Ok t)
                 /\ fromtimestamp_utc t = Raise e
                 /\ (e = ValueError \/ e = OSError).

(** The field names that [fetch_features] gives to the strategy builder:
    the discovered ones, or its guess when none was discovered. *)
Definition fields_or_guess (available_fields : list string) : list string :=
  match available_fields with
  | [] => ["OCC_YEAR"; "OCC_DATE"; "REPORT_DATE"]
  | _ => available_fields
  end.

(** The three conditions under which the pagination loop stops after a
    page, [all_features] being what was accumulated before that page. *)
Definition stops_after (all_features : list feature) (data : response)
    : Prop :=
  length (features data) = 0
  \/ (100000 <= Z.of_nat (length (all_features ++ features data)))%Z
  \/ (no_more_flag data = true
      /\ (Z.of_nat (length (features data)) < PAGE_SIZE)%Z).

(** A run of the strategy loop over strategies that are all rejected: each
    one raises, or ends with nothing accumulated.  The relation threads the
    service state and the variable [all_features]. *)
Inductive rejected (endpoint_url : string)
    : list (string * string) -> list feature -> St ->
      list feature -> St -> Prop :=
  | rejected_nil all_features st :
      rejected endpoint_url [] all_features st all_features st
  | rejected_cons where_clause description rest all_features st
        st1 acc how all_features' st' :
      paginate endpoint_url where_clause st = (st1, acc, how) ->
      (how = Break -> acc = []) ->
      rejected endpoint_url rest acc st1 all_features' st' ->
      rejected endpoint_url ((where_clause, description) :: rest)
        all_features st all_features' st'.

(** The recency key of a feature: [sort_key] is its negation, so that the
    ascending sort of Python puts the newest first. *)
Definition recency_key (f : feature) : result pynum :=
  num_neg <$> sort_key f.

(** The epoch-millisecond value of a feature: OCC_DATE, else REPORT_DATE,
    when it is numeric and greater than 1,000,000,000. *)
Definition epoch_key (f : feature) : option pynum :=
  match as_number (py_or (dict_get (attributes f) "OCC_DATE")
                     (dict_get (attributes f) "REPORT_DATE")) with
  | Some n => if num_ltb (NInt 1000000000) n then Some n else None
  | None => None
  end.

(** An attribute that is an [int], or zero when it is absent or null. *)
Definition int_attr (f : feature) (k : string) : option Z :=
  match attributes f !! k with
  | None | Some SNone => Some 0%Z
  | Some (SInt z) => Some z
  | Some _ => None
  end.

(** The month of a feature: the number of a month name (zero when the name
    is not one), an [int] as it is, zero when absent or null. *)
Definition month_attr (f : feature) : option Z :=
  match attributes f !! "OCC_MONTH" with
  | None | Some SNone => Some 0%Z
  | Some (SInt z) => Some z
  | Some (SStr s) => Some (default 0%Z (MONTH_NAME_TO_NUM !! s))
  | Some _ => None
  end.

(** [f] is at least as recent as [g]. *)
Definition newer_or_equal (f g : feature) : Prop :=
  exists kf kg,
    recency_key f = Ok kf /\ recency_key g = Ok kg /\ num_leb kg kf = true.

(** Sorted descending by recency key. *)
Definition newest_first (l : list feature) : Prop :=
  StronglySorted newer_or_equal l.

Definition key_le (x y : pynum * feature) : Prop := num_leb x.1 y.1 = true.

(** The identifier that a feature carries: EVENT_UNIQUE_ID, else
    OBJECTID, else none. *)
Definition explicit_id (f : feature) : scalar :=
  _first_of (attributes f) (FIELD_MAP !!! "id_fields") SNone.

(** The ids of the records that the features [kept] become, in order, [n]
    records having been emitted before them. *)
Fixpoint ids_from (theft_type : string) (n : nat) (kept : list feature)
    : list string :=
  match kept with
  | [] => []
  | f :: kept' =>
      (theft_type +:+ "-" +:+ py_str (resolved_id n f))
      :: ids_from theft_type (S n) kept'
  end.

(** The UTC YYYY-MM-DD rendering of an instant given in whole epoch
    milliseconds, whatever its year. *)
Definition utc_rendering (ms : Z) : string :=
  strftime_ymd (civil_from_days (ms / 86400000)).

(** The first character of a string, and its last one, is white space. *)
Definition starts_with_space (s : string) : bool :=
  match s with
  | EmptyString => false
  | String c _ => is_space c
  end.

Fixpoint ends_with_space (s : string) : bool :=
  match s with
  | EmptyString => false
  | String c EmptyString => is_space c
  | String _ s' => ends_with_space s'
  end.

(** A string without white space at either end. *)
Definition trimmed (s : string) : Prop :=
  starts_with_space s = false /\ ends_with_space s = false.

(** The text fields of a feature as [process_features] resolves them. *)
Definition resolved_neighbourhood (f : feature) : scalar :=
  _first_of (attributes f) (FIELD_MAP !!! "neighbourhood_fields")
    (SStr "Unknown").
Definition resolved_premise (f : feature) : scalar :=
  _first_of (attributes f) (FIELD_MAP !!! "premise_fields") (SStr "Unknown").
Definition resolved_status (f : feature) : scalar :=
  _first_of (attributes f) (FIELD_MAP !!! "status_fields") (SStr "Unknown").

(** The service is out of reach: every attempt is a transport failure, a
    body that is not JSON, or an error payload. *)
Definition unavailable : Prop :=
  forall st req,
    match (transport st req).2 with
    | Body data => has_error data = true
    | TransportFailure | NotJson => True
    end.

(** The service never sends more features than the page size it is asked
    for. *)
Definition page_size_respected : Prop :=
  forall st req st' data,
    transport st req = (st', Body data) ->
    (Z.of_nat (length (features data)) <= PAGE_SIZE)%Z.

(** What [main] writes for a category: the records, or the empty array when
    the extraction or the transformation raised. *)
Definition category_records (theft_type endpoint_url : string) (st : St)
    : list clean_record :=
  match raw_features ← (fetch_features endpoint_url theft_type st).2;
        process_features raw_features theft_type with
  | Ok s => clean_records s
  | Raise _ => []
  end.

(** The two files of a run. *)
Definition auto_file : string := "public/data/auto_thefts.json".
Definition bike_file : string := "public/data/bike_thefts.json".

(** The parameters of the discovery probe. *)
Definition probe_params : list (string * string) :=
  [ ("where", "1=1"); ("outFields", "*"); ("f", "json");
    ("resultRecordCount", "1"); ("resultOffset", "0") ].

(** The filters that a fetch can send. *)
Definition possible_filters : list string :=
  [ "OCC_YEAR >= " +:+ string_of_Z cutoff_year;
    "OCC_DATE >= " +:+ string_of_Z cutoff_ms;
    "REPORT_DATE >= " +:+ string_of_Z cutoff_ms;
    "1=1" ].

(** A request for a page: to the endpoint, with one of the filters, at an
    offset that is a multiple of the page size. *)
Definition page_request (endpoint_url : string) (filters : list string)
    (req : request) : Prop :=
  req_url req = endpoint_url
  /\ exists w k,
       w ∈ filters
       /\ req_params req = page_params w (PAGE_SIZE * Z.of_nat k).

(** ** Data of the examples *)

(** A runtime: arithmetic without rounding error, which satisfies the two
    hypotheses on [rn]; no string is a float; every float prints alike. *)
Definition rn_exact (q : Q) : pyfloat := FFin (Qred q).
Definition no_float_of_str (s : string) : option pyfloat := None.
Definition any_float_repr (x : pyfloat) : string := "0.0".

Definition incident (uid : string) (year : scalar) (month : string)
    (day : Z) (lat lng : Q) : feature :=
  Feature
    (list_to_map
       [ ("EVENT_UNIQUE_ID", SStr uid); ("OCC_YEAR", year);
         ("OCC_MONTH", SStr month); ("OCC_DAY", SInt day);
         ("OCC_HOUR", SInt 14) ])
    (list_to_map [ ("x", SFloat (FFin lng)); ("y", SFloat (FFin lat)) ]).

Definition downtown : feature :=
  incident "GO-2026101" (SInt 2026) "June" 3 (4365 # 100) (-794 # 10).
Definition uptown : feature :=
  incident "GO-2026102" (SInt 2026) "July" 9 (4372 # 100) (-794 # 10).
Definition null_island : feature :=
  incident "GO-2026103" (SInt 2026) "June" 4 0 0.
Definition paris : feature :=
  incident "GO-2026104" (SInt 2026) "June" 5 (4885 # 100) (235 # 100).

(** OCC_YEAR is text that is not a number. *)
Definition unknown_year : feature :=
  incident "GO-2026105" (SStr "unknown") "June" 6 (4365 # 100) (-794 # 10).

(** OCC_DAY is null and OCC_DOW names a weekday. *)
Definition weekday_only : feature :=
  Feature
    (list_to_map
       [ ("EVENT_UNIQUE_ID", SStr "GO-2026106"); ("OCC_YEAR", SInt 2026);
         ("OCC_MONTH", SStr "June"); ("OCC_DAY", SNone);
         ("OCC_DOW", SStr "Monday"); ("OCC_HOUR", SInt 14) ])
    (list_to_map
       [ ("x", SFloat (FFin (-794 # 10))); ("y", SFloat (FFin (4365 # 100))) ]).

(** A feature without attributes and without geometry. *)
Definition blank : feature := Feature ∅ ∅.

(** Ten features of July 2026, one per day, out of order and newest
    first. *)
Definition july (d : Z) : feature :=
  incident ("GO-" +:+ string_of_Z d) (SInt 2026) "July" d
    (4365 # 100) (-794 # 10).
Definition ten : list feature :=
  july <$> [3; 9; 1; 10; 2; 8; 4; 7; 5; 6]%Z.
Definition ten_newest_first : list feature :=
  july <$> [10; 9; 8; 7; 6; 5; 4; 3; 2; 1]%Z.

(** The endpoint of the "auto" category. *)
Definition auto_endpoint : string := default "" (ENDPOINTS !! "auto").

(** The endpoint of the "bike" category. *)
Definition bike_endpoint : string := default "" (ENDPOINTS !! "bike").

Fixpoint param (k : string) (ps : list (string * string)) : string :=
  match ps with
  | [] => ""
  | (k', v) :: ps' => if String.eqb k k' then v else param k ps'
  end.

Definition page_of (l : list feature) (more : option scalar) : response :=
  Response false l more [].
Definition error_body : response := Response true [] None [].

(** Three services; the state counts the attempts served.  The first
    rejects every filter but the unconditional one, for which it has the
    ten features.  The second has exactly PAGE_SIZE features.  The third
    announces more data after a first page of two features, and fails on
    every later request. *)
Definition fallback_service (n : nat) (req : request) : nat * attempt :=
  (S n,
   if String.eqb (param "where" (req_params req)) "1=1" then
     if String.eqb (param "resultOffset" (req_params req)) "0" then
       Body (page_of ten None)
     else Body (page_of [] None)
   else Body error_body).

Definition full_page_service (n : nat) (req : request) : nat * attempt :=
  (S n,
   if String.eqb (param "resultOffset" (req_params req)) "0" then
     Body (page_of (replicate 2000 blank) (Some (SBool true)))
   else Body (page_of [] None)).

Definition dropping_service (n : nat) (req : request) : nat * attempt :=
  (S n,
   if String.eqb (param "resultOffset" (req_params req)) "0" then
     Body (page_of [downtown; uptown] (Some (SBool true)))
   else TransportFailure).

(** A feature of March 2026, before the cutoff of the examples; one whose
    neighbourhood is padded with white space; one without a year and a
    month; one dated by an epoch value only. *)
Definition march : feature :=
  incident "GO-2026107" (SInt 2026) "March" 3 (4365 # 100) (-794 # 10).

Definition padded : feature :=
  Feature
    (list_to_map
       [ ("EVENT_UNIQUE_ID", SStr "GO-2026108"); ("OCC_YEAR", SInt 2026);
         ("OCC_MONTH", SStr "June"); ("OCC_DAY", SInt 3);
         ("NEIGHBOURHOOD_158", SStr "  Annex (95) ") ])
    (list_to_map
       [ ("x", SFloat (FFin (-794 # 10))); ("y", SFloat (FFin (4365 # 100))) ]).

Definition undated : feature :=
  Feature
    (list_to_map [ ("EVENT_UNIQUE_ID", SStr "GO-2026109") ])
    (list_to_map
       [ ("x", SFloat (FFin (-794 # 10))); ("y", SFloat (FFin (4365 # 100))) ]).

Definition stamped : feature :=
  Feature (list_to_map [ ("OCC_DATE", SInt 1780000000000) ]) ∅.

(** Ten features, the last of which has a text in OCC_YEAR, and the
    service of the first example with these ten features. *)
Definition ten_with_text_year : list feature :=
  (july <$> [3; 9; 1; 10; 2; 8; 4; 7; 5]%Z) ++ [unknown_year].

Definition text_year_service (n : nat) (req : request) : nat * attempt :=
  (S n,
   if String.eqb (param "where" (req_params req)) "1=1" then
     if String.eqb (param "resultOffset" (req_params req)) "0" then
       Body (page_of ten_with_text_year None)
     else Body (page_of [] None)
   else Body error_body).


(** A service that never answers. *)
Definition dead_service (n : nat) (req : request) : nat * attempt :=
  (S n, TransportFailure).

(** * Properties *)

(** ** The error monad *)

Lemma bind_Ok {A B} (m : result A) (k : A -> result B) (b : B) :
  m ≫= k = Ok b -> exists a, m = Ok a /\ k a = Ok b.
Proof. destruct m as [a|e]; simpl; [eauto | discriminate]. Qed.

Lemma Ok_inj {A} (a b : A) : Ok a = Ok b -> a = b.
Proof. congruence. Qed.

(** Splits a hypothesis [m ≫= k = Ok b]. *)
Ltac bind_inv H :=
  let a := fresh "a" in
  let Ha := fresh "Ha" in
  apply bind_Ok in H; destruct H as (a & Ha & H).

(** ** Floats and rounding *)

Lemma round_half_even_lower (z : Z) (q : Q) :
  (inject_Z z <= q)%Q -> (z <= round_half_even q)%Z.
Proof.
  intros H. unfold round_half_even.
  assert (z <= Qfloor q)%Z
    by (rewrite <- (Qfloor_Z z); apply Qfloor_resp_le, H).
  destruct (_ ?= _)%Q; [destruct (Z.even _) | |]; lia.
Qed.

Lemma round_half_even_upper (z : Z) (q : Q) :
  (q <= inject_Z z)%Q -> (round_half_even q <= z)%Z.
Proof.
  intros H. unfold round_half_even.
  assert (Hf : (Qfloor q <= z)%Z)
    by (rewrite <- (Qfloor_Z z); apply Qfloor_resp_le, H).
  destruct (Z.eq_dec (Qfloor q) z) as [E | E].
  - rewrite E.
    destruct (Qcompare_spec (q - inject_Z z) (1 # 2)) as [C | C | C];
      [exfalso; lra | reflexivity | exfalso; lra].
  - destruct (_ ?= _)%Q; [destruct (Z.even _) | |]; lia.
Qed.

Lemma fleb_FFin (a b : Q) : fleb (FFin a) (FFin b) = true <-> (a <= b)%Q.
Proof. apply Qle_bool_iff. Qed.

Lemma fleb_trans (a b c : pyfloat) :
  fleb a b = true -> fleb b c = true -> fleb a c = true.
Proof.
  destruct a as [[]|x], b as [[]|y], c as [[]|z]; simpl; try done.
  rewrite !Qle_bool_iff. apply Qle_trans.
Qed.

Lemma fleb_total (a b : pyfloat) : fleb a b = true \/ fleb b a = true.
Proof.
  destruct a as [[]|x], b as [[]|y]; simpl; auto.
  rewrite !Qle_bool_iff. destruct (Qlt_le_dec x y); [left | right]; lra.
Qed.

Lemma round6_bounds (lo hi : Z) (x : pyfloat) :
  (Z.abs lo <= 2 ^ 53)%Z -> (Z.abs hi <= 2 ^ 53)%Z ->
  fleb (FFin (inject_Z lo)) x = true -> fleb x (FFin (inject_Z hi)) = true ->
  fleb (FFin (inject_Z lo)) (round6 x) = true
  /\ fleb (round6 x) (FFin (inject_Z hi)) = true.
Proof.
  intros Hlo Hhi Hl Hu. destruct x as [[]|q]; try done.
  rewrite fleb_FFin in Hl, Hu. unfold round6.
  set (n := round_half_even (q * inject_Z 1000000)).
  assert (Hn1 : (lo * 1000000 <= n)%Z).
  { apply round_half_even_lower. rewrite inject_Z_mult.
    change (inject_Z 1000000) with (1000000 # 1). lra. }
  assert (Hn2 : (n <= hi * 1000000)%Z).
  { apply round_half_even_upper. rewrite inject_Z_mult.
    change (inject_Z 1000000) with (1000000 # 1). lra. }
  rewrite Zle_Qle, inject_Z_mult in Hn1, Hn2.
  change (inject_Z 1000000) with (1000000 # 1) in *.
  split.
  - rewrite <- (rn_int (inject_Z lo) lo) by (done || reflexivity).
    apply rn_mono. apply Qle_shift_div_l; lra.
  - rewrite <- (rn_int (inject_Z hi) hi) by (done || reflexivity).
    apply rn_mono. apply Qle_shift_div_r; lra.
Qed.

Lemma round6_in_box (lat lng : pyfloat) :
  in_box lat lng = true -> in_box (round6 lat) (round6 lng) = true.
Proof.
  unfold in_box. rewrite !andb_true_iff. intros [[[H1 H2] H3] H4].
  destruct (round6_bounds 41 57 lat) as [? ?]; [lia | lia | done | done |].
  destruct (round6_bounds (-95) (-73) lng) as [? ?];
    [lia | lia | done | done |].
  auto.
Qed.

Lemma in_box_not_both_zero (lat lng : pyfloat) :
  in_box lat lng = true -> both_zero lat lng = false.
Proof.
  unfold in_box, both_zero. rewrite !andb_true_iff. intros [[[H1 _] _] _].
  destruct lat as [[]|q]; simpl in *; try done.
  apply Qle_bool_iff in H1.
  destruct (Qeq_bool q 0) eqn:E; [| done].
  apply Qeq_bool_eq in E. lra.
Qed.

(** ** The Transformer, one feature at a time *)

(** The three ways an iteration ends without raising. *)
Lemma process_feature_Ok theft_type s f s' :
  process_feature theft_type s f = Ok s' ->
  (bad_coords f = true /\ s' = skip_bad_coords s)
  \/ (bad_coords f = false
      /\ ((exists month, parse_month (resolved_month f) = Ok month
                        /\ window_check f month = Ok true)
          /\ s' = skip_out_of_window s
          \/ exists r, emitted theft_type (length (clean_records s)) f r
                       /\ s' = emit s r)).
Proof.
  unfold process_feature, bad_coords. intros H.
  bind_inv H. destruct a as [lat lng]. rewrite Ha.
  destruct (both_zero lat lng) eqn:Ez; [left; split; [done | congruence] |].
  destruct (in_box lat lng) eqn:Eb; cbn [negb orb] in H |- *;
    [| left; split; [done | congruence]].
  right. split; [done |].
  bind_inv H. rename a into month, Ha0 into Hm.
  bind_inv H. rename a into date_str, Ha0 into Hd.
  bind_inv H. rename a into old, Ha0 into Hw.
  destruct old.
  - left. split; [by exists month | congruence].
  - right. bind_inv H. bind_inv H. bind_inv H. apply Ok_inj in H. subst s'.
    eexists. split; [| reflexivity].
    exists lat, lng.
    cbn [r_month r_date r_year r_day r_hour r_id r_type r_lat r_lng].
    repeat split; done.
Qed.

(** A feature with bad coordinates is skipped, whatever else it holds, and
    only the bad-coordinate counter moves. *)
Lemma process_feature_bad_coords theft_type s f :
  bad_coords f = true ->
  process_feature theft_type s f = Ok (skip_bad_coords s).
Proof.
  unfold bad_coords, process_feature. intros H.
  destruct (resolve_coords f) as [[lat lng]|e]; [| done].
  cbn [mbind result_bind].
  destruct (both_zero lat lng); [done |].
  cbn [orb] in H. by rewrite H.
Qed.

Lemma process_from_Ok theft_type fs : forall s s',
  process_from theft_type s fs = Ok s' ->
  discarded_coords s'
    = discarded_coords s + length (List.filter bad_coords fs)
  /\ exists new,
       clean_records s' = clean_records s ++ new
       /\ emitted_run theft_type (length (clean_records s)) fs new.
Proof.
  induction fs as [| f fs IH]; intros s s' H; cbn [process_from] in H.
  - apply Ok_inj in H. subst s'. split; [simpl; lia |].
    exists []. rewrite app_nil_r. split; [done | constructor].
  - bind_inv H. rename a into s1.
    destruct (IH _ _ H) as (Hc & new & Hn & Hr).
    apply process_feature_Ok in Ha.
    destruct Ha as [[Hb ->] | [Hb [[_ ->] | (r & Hr1 & ->)]]];
      cbn [List.filter skip_bad_coords skip_out_of_window emit clean_records
           discarded_coords length] in *; rewrite Hb.
    + split; [simpl; lia |]. exists new. split; [done | by constructor].
    + split; [lia |]. exists new. split; [done | by constructor].
    + split; [lia |]. exists (r :: new).
      rewrite <- app_assoc in Hn. split; [done |].
      rewrite length_app in Hr. simpl in Hr.
      replace (length (clean_records s) + 1) with
        (S (length (clean_records s))) in Hr by lia.
      by constructor.
Qed.

Lemma emitted_run_Forall theft_type (P : clean_record -> Prop) :
  forall n fs rs,
    emitted_run theft_type n fs rs ->
    (forall m f r, In f fs -> emitted theft_type m f r -> P r) ->
    Forall P rs.
Proof.
  induction 1 as [| n f fs rs _ IH | n f fs r rs He _ IH]; intros HP.
  - constructor.
  - apply IH. intros m g r Hin. apply HP. by right.
  - constructor.
    + apply (HP n f r); [by left | done].
    + apply IH. intros m g r' Hin. apply HP. by right.
Qed.

(** ** Coordinates *)

Lemma emitted_coords theft_type n f r :
  emitted theft_type n f r ->
  in_box (r_lat r) (r_lng r) = true
  /\ both_zero (r_lat r) (r_lng r) = false
  /\ bad_coords f = false
  /\ exists lat lng,
       resolve_coords f = Ok (lat, lng)
       /\ r_lat r = round6 lat /\ r_lng r = round6 lng.
Proof.
  intros (lat & lng & Hc & Hz & Hb & _ & _ & _ & _ & _ & _ & _ & _ & Hlat & Hlng).
  assert (in_box (r_lat r) (r_lng r) = true)
    by (rewrite Hlat, Hlng; by apply round6_in_box).
  repeat split; [done | by apply in_box_not_both_zero | | by eauto].
  unfold bad_coords. by rewrite Hc, Hz, Hb.
Qed.

(** C1.  Whatever the raw features and the category, when the Transformer
    returns: every emitted record has coordinates inside the box
    41 <= lat <= 57, -95 <= lng <= -73, hence not both zero; every emitted
    record is the rounding of the resolved coordinates of a raw feature
    whose coordinates are good; the bad-coordinate counter is the number of
    raw features whose resolved coordinates are (0,0) or outside the box;
    and each such feature is skipped, with only that counter incremented,
    in whatever state it is met. *)
Theorem transformer_coordinates (raw_features : list feature)
    (theft_type : string) (s : run_state) :
  process_features raw_features theft_type = Ok s ->
  Forall (fun r => in_box (r_lat r) (r_lng r) = true
                   /\ both_zero (r_lat r) (r_lng r) = false)
    (clean_records s)
  /\ Forall (fun r => exists f lat lng,
                In f raw_features /\ bad_coords f = false
                /\ resolve_coords f = Ok (lat, lng)
                /\ r_lat r = round6 lat /\ r_lng r = round6 lng)
       (clean_records s)
  /\ discarded_coords s = length (List.filter bad_coords raw_features)
  /\ (forall st f, bad_coords f = true ->
        process_feature theft_type st f = Ok (skip_bad_coords st)).
Proof.
  intros H. apply process_from_Ok in H.
  destruct H as (Hc & new & Hn & Hr). cbn in Hn, Hc, Hr. subst new.
  repeat split.
  - eapply emitted_run_Forall; [exact Hr |].
    intros m f r _ He. apply emitted_coords in He. tauto.
  - eapply emitted_run_Forall; [exact Hr |].
    intros m f r Hin He. apply emitted_coords in He.
    destruct He as (_ & _ & Hb & lat & lng & ?). by exists f, lat, lng.
  - exact Hc.
  - intros st f. apply process_feature_bad_coords.
Qed.

(** ** The recency window *)

Lemma before_cutoff_month (year : scalar) (month : Z) :
  before_cutoff year month
  = (record_year ← (if py_truthy year then py_int year else Ok 0%Z);
     Ok (record_year * 100 + month <? cutoff_year * 100 + cutoff_month)%Z).
Proof.
  unfold before_cutoff.
  destruct (if py_truthy year then py_int year else Ok 0%Z) as [y|e];
    [| done].
  cbn. destruct (Z.eqb_spec month 0) as [-> |]; reflexivity.
Qed.

(** A record is emitted only when the [try] of the window test ran to its
    end: the [except] branch never keeps a record, because [int(year)] is
    evaluated again, unguarded, when the record is built. *)
Lemma emitted_window_checked theft_type n f r :
  emitted theft_type n f r ->
  before_cutoff (resolved_year f) (r_month r) = Ok false.
Proof.
  intros (lat & lng & _ & _ & _ & _ & _ & Hw & Hy & _).
  unfold window_check in Hw. rewrite before_cutoff_month in Hw |- *.
  destruct (py_truthy (resolved_year f)).
  - rewrite Hy in Hw |- *. exact Hw.
  - exact Hw.
Qed.

(** Every emitted record is inside the window. *)
Lemma emitted_in_window theft_type n f r :
  (0 <= now_year)%Z ->
  emitted theft_type n f r ->
  (cutoff_year * 100 + cutoff_month <= r_year r * 100 + r_month r)%Z.
Proof.
  intros Hnow He. pose proof (emitted_window_checked _ _ _ _ He) as Hw.
  destruct He as (lat & lng & _ & _ & _ & _ & _ & _ & Hy & _).
  rewrite before_cutoff_month in Hw.
  destruct (py_truthy (resolved_year f)).
  - rewrite Hy in Hw. cbn in Hw. apply Ok_inj in Hw. lia.
  - cbn in Hw. apply Ok_inj in Hw, Hy. lia.
Qed.

Lemma transformer_window (raw_features : list feature) (theft_type : string)
    (s : run_state) :
  (0 <= now_year)%Z ->
  process_features raw_features theft_type = Ok s ->
  Forall (fun r =>
            (cutoff_year * 100 + cutoff_month <= r_year r * 100 + r_month r)%Z)
    (clean_records s).
Proof.
  intros Hnow H. apply process_from_Ok in H.
  destruct H as (_ & new & Hn & Hr). cbn in Hn, Hr. subst new.
  eapply emitted_run_Forall; [exact Hr |].
  intros m f r _ He. by eapply emitted_in_window.
Qed.

(** A feature that reaches the window test with a year that [int] rejects
    is not kept: the iteration raises. *)
Lemma process_feature_unparseable_year theft_type s f lat lng month e :
  resolve_coords f = Ok (lat, lng) ->
  both_zero lat lng = false -> in_box lat lng = true ->
  parse_month (resolved_month f) = Ok month ->
  before_cutoff (resolved_year f) month = Raise e ->
  exists e', process_feature theft_type s f = Raise e'.
Proof.
  intros Hc Hz Hb Hm Hw. unfold process_feature.
  rewrite Hc. cbn [mbind result_bind]. rewrite Hz, Hb. cbn [negb].
  fold (resolved_month f) (resolved_year f) (resolved_date f)
    (resolved_day f).
  rewrite Hm. cbn [mbind result_bind].
  destruct (parse_date_string _ _ _ _) as [date_str|e0]; [| by eexists].
  cbn [mbind result_bind]. rewrite Hw.
  rewrite before_cutoff_month in Hw.
  destruct (py_truthy (resolved_year f)); [| done].
  destruct (py_int (resolved_year f)) as [y|e1]; [done |].
  cbn in Hw. apply (f_equal (fun r => match r with Raise x => x | _ => e end))
    in Hw. subst e1.
  unfold try_except. destruct (exn_in e _); by eexists.
Qed.

(** ** The Field Resolver *)

Lemma first_of_head (attrs : gmap string scalar) (names : list string)
    (dflt : scalar) :
  _first_of attrs names dflt
  = default dflt (head (omap (present attrs) names)).
Proof.
  induction names as [| k names IH]; [done |].
  cbn [_first_of omap list_omap]. unfold dict_get, present at 1.
  destruct (attrs !! k) as [v|]; simpl; [| done].
  by destruct (is_none v).
Qed.

(** C8.  [_first_of] returns the value of the first candidate key, in the
    order of the list, that the mapping holds with a non-null value, and the
    default when there is none; it is total.  {"OCC_YEAR": 2024} with
    candidates ["OCC_YEAR"] resolves to 2024, and any mapping without
    NEIGHBOURHOOD_158 (and without NEIGHBOURHOOD_140, the candidate between
    the two) that has HOOD_158 = "Annex" resolves to "Annex" through the
    neighbourhood field list. *)
Theorem first_of_spec :
  (forall (attrs : gmap string scalar) (names : list string) (dflt : scalar),
     _first_of attrs names dflt
     = default dflt (head (omap (present attrs) names)))
  /\ (forall dflt : scalar,
        _first_of {[ "OCC_YEAR" := SInt 2024 ]} ["OCC_YEAR"] dflt = SInt 2024)
  /\ (forall (m : gmap string scalar) (dflt : scalar),
        _first_of
          (<["HOOD_158" := SStr "Annex"]>
             (delete "NEIGHBOURHOOD_158" (delete "NEIGHBOURHOOD_140" m)))
          (FIELD_MAP !!! "neighbourhood_fields") dflt
        = SStr "Annex").
Proof.
  split; [apply first_of_head | split].
  - intros dflt. reflexivity.
  - intros m dflt.
    change (FIELD_MAP !!! "neighbourhood_fields")
      with ["NEIGHBOURHOOD_158"; "NEIGHBOURHOOD_140"; "HOOD_158";
            "NEIGHBOURHOOD"].
    cbn [_first_of]. unfold dict_get.
    rewrite lookup_insert_ne by done. rewrite lookup_delete_eq.
    cbn [default is_none].
    rewrite lookup_insert_ne by done. rewrite lookup_delete_ne by done.
    rewrite lookup_delete_eq. cbn [default is_none].
    by rewrite lookup_insert_eq.
Qed.

(** ** Date normalization *)

Lemma parse_date_string_decoded raw_date year month day t dt :
  epoch_seconds raw_date = Some (Ok t) ->
  fromtimestamp_utc t = Ok dt ->
  parse_date_string raw_date year month day = Ok (strftime_ymd dt).
Proof.
  unfold epoch_seconds, parse_date_string. intros H Ht.
  destruct (as_number raw_date) as [n|]; [| done].
  destruct (num_ltb _ n); [| done].
  apply (inj Some) in H. rewrite H. cbn [mbind result_bind].
  rewrite Ht. reflexivity.
Qed.

Lemma parse_date_string_undecoded raw_date year month day :
  undecodable raw_date ->
  parse_date_string raw_date year month day
  = match str_prefix10 raw_date with
    | Some s => Ok s
    | None =>
        try_except
          (y ← py_int year; m ← py_int month; d ← py_int day;
           Ok (format_0d 4 y +:+ "-" +:+ format_0d 2 m +:+ "-"
               +:+ format_0d 2 d))
          [TypeError; ValueError]
          (Ok (string_of_Z now_year +:+ "-01-01"))
    end.
Proof.
  unfold undecodable, epoch_seconds, parse_date_string. intros H.
  destruct (as_number raw_date) as [n|]; [| done].
  destruct (num_ltb _ n); [| done].
  destruct H as [H | (t & e & H & Ht & He)]; [done |].
  apply (inj Some) in H. rewrite H. cbn [mbind result_bind].
  rewrite Ht. by destruct He as [-> | ->].
Qed.

Lemma epoch_1700000000000 :
  epoch_seconds (SInt 1700000000000) = Some (Ok (FFin (inject_Z 1700000000))).
Proof.
  unfold epoch_seconds. cbn [as_number].
  change (num_ltb (NInt 1000000000) (NInt 1700000000000)) with true.
  cbv iota. f_equal. unfold num_div_1000, float_of_int.
  rewrite (rn_int _ 1700000000000) by (reflexivity || by vm_compute).
  cbn [fmap result_fmap mbind result_bind].
  by rewrite (rn_int _ 1700000000) by (reflexivity || by vm_compute).
Qed.

Lemma fromtimestamp_1700000000 :
  fromtimestamp_utc (FFin (inject_Z 1700000000)) = Ok (2023, 11, 14)%Z.
Proof.
  unfold fromtimestamp_utc. cbv zeta.
  by rewrite (rn_int _ 0) by (reflexivity || by vm_compute).
Qed.

(** C9, as amended.  [parse_date_string] returns the UTC YYYY-MM-DD
    rendering of the raw date when it is numeric, greater than
    1,000,000,000 and decodes, as epoch milliseconds, to a date (years 1 to
    9999); the first ten characters of the raw date when it is a string of
    length at least ten; else, the raw date not decoding, the zero-padded
    string built from the year, month and day when [int] accepts the three;
    else, when [int] rejects one of them with a TypeError or a ValueError,
    the default [<current year>-01-01].  Epoch milliseconds 1700000000000
    give "2023-11-14", "2024-05-01T00:00:00" gives "2024-05-01", and an
    absent raw date with year 2024, month 3, day 15 gives "2024-03-15". *)
Theorem parse_date_string_cascade :
  (forall raw_date year month day : scalar,
     (forall t dt,
        epoch_seconds raw_date = Some (Ok t) ->
        fromtimestamp_utc t = Ok dt ->
        parse_date_string raw_date year month day = Ok (strftime_ymd dt))
     /\ (forall s,
           raw_date = SStr s -> (10 <= String.length s)%nat ->
           parse_date_string raw_date year month day = Ok (substring 0 10 s))
     /\ (undecodable raw_date -> str_prefix10 raw_date = None ->
         forall y m d,
           py_int year = Ok y -> py_int month = Ok m -> py_int day = Ok d ->
           parse_date_string raw_date year month day
           = Ok (format_0d 4 y +:+ "-" +:+ format_0d 2 m +:+ "-"
                 +:+ format_0d 2 d))
     /\ (undecodable raw_date -> str_prefix10 raw_date = None ->
         forall e,
           (y ← py_int year; m ← py_int month; d ← py_int day; Ok (y, m, d))
           = Raise e ->
           e = TypeError \/ e = ValueError ->
           parse_date_string raw_date year month day
           = Ok (string_of_Z now_year +:+ "-01-01")))
  /\ (forall year month day,
        parse_date_string (SInt 1700000000000) year month day
        = Ok "2023-11-14")
  /\ (forall year month day,
        parse_date_string (SStr "2024-05-01T00:00:00") year month day
        = Ok "2024-05-01")
  /\ parse_date_string SNone (SInt 2024) (SInt 3) (SInt 15) = Ok "2024-03-15"
  /\ parse_date_string (SStr "") (SInt 2024) (SInt 3) (SInt 15)
     = Ok "2024-03-15".
Proof.
  split; [| split; [| split; [| split]]].
  - intros raw_date year month day. split; [| split; [| split]].
    + intros t dt. apply parse_date_string_decoded.
    + intros s -> Hlen. rewrite parse_date_string_undecoded by by left.
      unfold str_prefix10. apply Nat.leb_le in Hlen. by rewrite Hlen.
    + intros Hu Hp y m d Hy Hm Hd.
      rewrite parse_date_string_undecoded, Hp, Hy, Hm, Hd by done.
      reflexivity.
    + intros Hu Hp e He Hc.
      rewrite parse_date_string_undecoded, Hp by done.
      destruct (py_int year) as [y|e1]; cbn [mbind result_bind] in He |- *;
        [destruct (py_int month) as [m|e2]; cbn [mbind result_bind] in He |- *;
         [destruct (py_int day) as [d|e3];
          cbn [mbind result_bind] in He |- *; [done |] |] |].
      all: apply (f_equal (fun r : result (Z * Z * Z) =>
                             match r with Raise x => x | Ok _ => e end))
             in He; subst; by destruct Hc as [-> | ->].
  - intros year month day.
    rewrite (parse_date_string_decoded _ _ _ _ _ _
               epoch_1700000000000 fromtimestamp_1700000000).
    reflexivity.
  - intros year month day. rewrite parse_date_string_undecoded by by left.
    reflexivity.
  - rewrite parse_date_string_undecoded by by left. reflexivity.
  - rewrite parse_date_string_undecoded by by left. reflexivity.
Qed.

(** ** Pagination *)

Lemma paginate_loop_S fuel endpoint_url where_clause offset all_features st :
  paginate_loop (S fuel) endpoint_url where_clause offset all_features st
  = let '(st', r) :=
      http_get_json endpoint_url (page_params where_clause offset) st in
    match r with
    | Raise e => Some (st', all_features, Raised e)
    | Ok data =>
        let count := Z.of_nat (length (features data)) in
        if (count =? 0)%Z then Some (st', all_features, Break)
        else
          let all_features := all_features ++ features data in
          let offset := (offset + PAGE_SIZE)%Z in
          if (100000 <=? Z.of_nat (length all_features))%Z then
            Some (st', all_features, Break)
          else if no_more_flag data && (count <? PAGE_SIZE)%Z then
            Some (st', all_features, Break)
          else
            paginate_loop fuel endpoint_url where_clause offset
              all_features st'
    end.
Proof. reflexivity. Qed.

(** The loop ends: every page that does not stop it adds a feature, and it
    goes on only below 100000 features. *)
Lemma paginate_loop_total fuel endpoint_url where_clause :
  forall offset all_features st,
    (Z.of_nat (length all_features) < 100000)%Z ->
    (100000 < Z.of_nat fuel + Z.of_nat (length all_features))%Z ->
    is_Some (paginate_loop fuel endpoint_url where_clause offset
               all_features st).
Proof.
  induction fuel as [| fuel IH]; intros offset acc st Hlen Hfuel; [lia |].
  rewrite paginate_loop_S.
  destruct (http_get_json _ _ st) as [st' [data|e]]; [| by eexists].
  cbv zeta.
  destruct (Z.eqb_spec (Z.of_nat (length (features data))) 0);
    [by eexists |].
  destruct (Z.leb_spec 100000 (Z.of_nat (length (acc ++ features data))));
    [by eexists |].
  destruct (_ && _); [by eexists |].
  apply IH; [done |]. rewrite length_app in *. lia.
Qed.

Lemma paginate_loop_mono fuel endpoint_url where_clause :
  forall offset all_features st r fuel',
    paginate_loop fuel endpoint_url where_clause offset all_features st
    = Some r ->
    fuel <= fuel' ->
    paginate_loop fuel' endpoint_url where_clause offset all_features st
    = Some r.
Proof.
  induction fuel as [| fuel IH]; intros offset acc st r fuel' H Hle;
    [done |].
  destruct fuel' as [| fuel']; [lia |].
  rewrite paginate_loop_S in H |- *.
  destruct (http_get_json _ _ st) as [st' [data|e]]; [| done].
  cbv zeta in H |- *.
  destruct (_ =? _)%Z; [done |].
  destruct (_ <=? _)%Z; [done |].
  destruct (_ && _); [done |].
  apply IH; [done | lia].
Qed.

(** [paginate] is the result of the loop, whatever fuel shows it. *)
Lemma paginate_loop_paginate fuel endpoint_url where_clause st r :
  paginate_loop fuel endpoint_url where_clause 0 [] st = Some r ->
  paginate endpoint_url where_clause st = r.
Proof.
  intros H. unfold paginate.
  destruct (paginate_loop_total pagination_fuel endpoint_url where_clause
              0 [] st) as [r' Hr']; [done | unfold pagination_fuel; cbn; lia |].
  rewrite Hr'. cbn.
  apply (paginate_loop_mono _ _ _ _ _ _ _ (Nat.max fuel pagination_fuel))
    in H, Hr'; [| lia | lia].
  congruence.
Qed.

Lemma paginate_total endpoint_url where_clause st :
  paginate_loop pagination_fuel endpoint_url where_clause 0 [] st
  = Some (paginate endpoint_url where_clause st).
Proof.
  destruct (paginate_loop_total pagination_fuel endpoint_url where_clause
              0 [] st) as [r Hr]; [done | unfold pagination_fuel; cbn; lia |].
  rewrite Hr. f_equal. symmetry. by eapply paginate_loop_paginate.
Qed.

Lemma stops_after_dec all_features data :
  stops_after all_features data
  <-> (Z.of_nat (length (features data)) =? 0)%Z
      || (100000 <=? Z.of_nat (length (all_features ++ features data)))%Z
      || (no_more_flag data
          && (Z.of_nat (length (features data)) <? PAGE_SIZE)%Z) = true.
Proof.
  unfold stops_after.
  rewrite !orb_true_iff, andb_true_iff, Z.eqb_eq, Z.leb_le, Z.ltb_lt.
  intuition lia.
Qed.

Lemma paginate_loop_page fuel endpoint_url where_clause offset all_features
    st st' data :
  http_get_json endpoint_url (page_params where_clause offset) st
  = (st', Ok data) ->
  paginate_loop (S fuel) endpoint_url where_clause offset all_features st
  = if (Z.of_nat (length (features data)) =? 0)%Z
       || (100000 <=? Z.of_nat (length (all_features ++ features data)))%Z
       || (no_more_flag data
           && (Z.of_nat (length (features data)) <? PAGE_SIZE)%Z)
    then Some (st', all_features ++ features data, Break)
    else paginate_loop fuel endpoint_url where_clause (offset + PAGE_SIZE)
           (all_features ++ features data) st'.
Proof.
  intros H. rewrite paginate_loop_S, H. cbv zeta.
  destruct (Z.eqb_spec (Z.of_nat (length (features data))) 0) as [E | E].
  - destruct (features data); [| done]. by rewrite app_nil_r.
  - cbn [orb]. destruct (_ <=? _)%Z; [done |]. cbn [orb].
    by destruct (_ && _).
Qed.

Lemma paginate_loop_raise fuel endpoint_url where_clause offset all_features
    st st' e :
  http_get_json endpoint_url (page_params where_clause offset) st
  = (st', Raise e) ->
  paginate_loop (S fuel) endpoint_url where_clause offset all_features st
  = Some (st', all_features, Raised e).
Proof. intros H. by rewrite paginate_loop_S, H. Qed.

(** C3.  After a page that the service answers, the pagination of a strategy
    stops exactly when the page is empty, or the accumulated count has
    reached 100000, or the exceededTransferLimit flag is absent or false
    (falsy, when it is not a boolean) and the page holds fewer than
    PAGE_SIZE features; otherwise it requests the page at the next offset.  The loop always ends.  When the service gives
    exactly PAGE_SIZE features on page 1 and none on page 2, the Fetcher
    requests page 2 and accumulates exactly the features of page 1. *)
Theorem pagination_stops_exactly_when :
  (forall fuel endpoint_url where_clause offset all_features st st' data,
     http_get_json endpoint_url (page_params where_clause offset) st
     = (st', Ok data) ->
     (stops_after all_features data ->
      paginate_loop (S fuel) endpoint_url where_clause offset all_features st
      = Some (st', all_features ++ features data, Break))
     /\ (~ stops_after all_features data ->
         paginate_loop (S fuel) endpoint_url where_clause offset
           all_features st
         = paginate_loop fuel endpoint_url where_clause (offset + PAGE_SIZE)
             (all_features ++ features data) st'))
  /\ (forall data,
        (exceededTransferLimit data = None -> no_more_flag data = true)
        /\ (forall b, exceededTransferLimit data = Some (SBool b) ->
                      no_more_flag data = negb b))
  /\ (forall endpoint_url where_clause st,
        paginate_loop pagination_fuel endpoint_url where_clause 0 [] st
        = Some (paginate endpoint_url where_clause st))
  /\ (forall endpoint_url where_clause st st1 st2 page1 page2,
        http_get_json endpoint_url (page_params where_clause 0) st
        = (st1, Ok page1) ->
        Z.of_nat (length (features page1)) = PAGE_SIZE ->
        http_get_json endpoint_url (page_params where_clause PAGE_SIZE) st1
        = (st2, Ok page2) ->
        features page2 = [] ->
        paginate endpoint_url where_clause st
        = (st2, features page1, Break)).
Proof.
  split; [| split; [| split]].
  - intros fuel url w offset acc st st' data H.
    rewrite (paginate_loop_page _ _ _ _ _ _ _ _ H).
    split; intros Hs; rewrite stops_after_dec in Hs.
    + by rewrite Hs.
    + by destruct (_ || _).
  - intros data. unfold no_more_flag.
    split; [by intros -> | by intros b ->].
  - apply paginate_total.
  - intros url w st st1 st2 page1 page2 H1 Hlen H2 Hnil.
    apply (paginate_loop_paginate 2).
    rewrite (paginate_loop_page _ _ _ _ _ _ _ _ H1). cbn [app].
    rewrite Hlen. change (0 + PAGE_SIZE)%Z with PAGE_SIZE.
    change ((PAGE_SIZE =? 0)%Z || (100000 <=? PAGE_SIZE)%Z) with false.
    rewrite Z.ltb_irrefl, andb_false_r. cbn [orb].
    rewrite (paginate_loop_page _ _ _ _ _ _ _ _ H2), Hnil, app_nil_r.
    reflexivity.
Qed.

(** ** The strategy loop *)

Lemma try_strategies_cons endpoint_url where_clause description rest
    all_features st :
  try_strategies endpoint_url ((where_clause, description) :: rest)
    all_features st
  = let '(st', acc, how) := paginate endpoint_url where_clause st in
    match how with
    | Break =>
        if (0 <? length acc)%nat then (st', acc)
        else try_strategies endpoint_url rest acc st'
    | Raised _ => try_strategies endpoint_url rest acc st'
    end.
Proof. reflexivity. Qed.

Lemma try_strategies_rejected endpoint_url pre rest all_features st
    all_features' st' :
  rejected endpoint_url pre all_features st all_features' st' ->
  try_strategies endpoint_url (pre ++ rest) all_features st
  = try_strategies endpoint_url rest all_features' st'.
Proof.
  induction 1 as [| w d pre all st st1 acc how all' st' Hp Hb _ IH]; [done |].
  rewrite <- app_comm_cons, try_strategies_cons, Hp.
  destruct how as [| e]; [| exact IH].
  rewrite (Hb eq_refl) in IH |- *. exact IH.
Qed.

Lemma try_strategies_accept endpoint_url where_clause description rest
    all_features st st' acc :
  paginate endpoint_url where_clause st = (st', acc, Break) ->
  acc <> [] ->
  try_strategies endpoint_url ((where_clause, description) :: rest)
    all_features st
  = (st', acc).
Proof.
  intros Hp Hne. rewrite try_strategies_cons, Hp.
  destruct acc; [done | reflexivity].
Qed.

(** Whatever the service does, the strategy loop hands over either nothing
    or what one strategy accumulated; an exception of the service never
    leaves [fetch_features], only one of the sort keys can. *)
Lemma fetch_with_result endpoint_url where_strategies st :
  exists st' all_features,
    try_strategies endpoint_url where_strategies [] st = (st', all_features)
    /\ fetch_with endpoint_url where_strategies st
       = (st', match all_features with
               | [] => Ok []
               | _ => sort_features all_features
               end).
Proof.
  unfold fetch_with.
  destruct (try_strategies _ _ _ _) as [st' acc]. exists st', acc.
  split; [done |]. by destruct acc.
Qed.

(** ** The sort *)

Lemma num_leb_total a b : num_leb a b = true \/ num_leb b a = true.
Proof. apply fleb_total. Qed.

Lemma fneg_fleb a b : fleb a b = true -> fleb (fneg b) (fneg a) = true.
Proof.
  destruct a as [[]|x], b as [[]|y]; cbn; try done.
  rewrite !Qle_bool_iff. lra.
Qed.

Lemma num_value_neg n : num_value (num_neg n) = fneg (num_value n).
Proof. destruct n as [z | f]; [| done]. cbn. by rewrite inject_Z_opp. Qed.

Lemma num_neg_leb a b :
  num_leb a b = true -> num_leb (num_neg b) (num_neg a) = true.
Proof. unfold num_leb. rewrite !num_value_neg. apply fneg_fleb. Qed.

Lemma Qopp_opp_eq (q : Q) : (- - q)%Q = q.
Proof. destruct q as [a b]. unfold Qopp. cbn. by rewrite Z.opp_involutive. Qed.

Lemma num_neg_involutive n : num_neg (num_neg n) = n.
Proof.
  destruct n as [z | [s | q]]; cbn.
  - by rewrite Z.opp_involutive.
  - by rewrite negb_involutive.
  - by rewrite Qopp_opp_eq.
Qed.

Lemma insert_by_key_perm x l : x :: l ≡ₚ insert_by_key x l.
Proof.
  induction l as [| y l IH]; [done |]. cbn [insert_by_key].
  destruct (num_ltb y.1 x.1); [| done].
  rewrite <- IH. apply perm_swap.
Qed.

Lemma insert_by_key_sorted x l :
  StronglySorted key_le l -> StronglySorted key_le (insert_by_key x l).
Proof.
  induction 1 as [| y l Hs IH Hy]; cbn [insert_by_key].
  - repeat constructor.
  - destruct (num_ltb y.1 x.1) eqn:E; unfold num_ltb, fltb in E.
    + constructor; [done |]. rewrite <- insert_by_key_perm.
      constructor; [| done]. unfold key_le.
      destruct (num_leb_total y.1 x.1) as [H | H]; [done |].
      unfold num_leb in H. by rewrite H in E.
    + apply negb_false_iff in E.
      constructor; [by constructor |]. constructor; [done |].
      eapply Forall_impl; [exact Hy |]. intros z Hz.
      unfold key_le, num_leb in *. by eapply fleb_trans.
Qed.

Lemma stable_sort_perm l : l ≡ₚ stable_sort l.
Proof.
  induction l as [| x l IH]; [done |]. cbn.
  rewrite <- insert_by_key_perm. by constructor.
Qed.

Lemma stable_sort_sorted l : StronglySorted key_le (stable_sort l).
Proof.
  induction l as [| x l IH]; [constructor |].
  by apply insert_by_key_sorted.
Qed.

Lemma with_keys_Ok l : forall kl,
  with_keys l = Ok kl ->
  kl.*2 = l /\ Forall (fun kf => sort_key kf.2 = Ok kf.1) kl.
Proof.
  induction l as [| f l IH]; intros kl H; cbn [with_keys] in H.
  - apply Ok_inj in H. by subst kl.
  - bind_inv H. rename a into k, Ha into Hk.
    bind_inv H. rename a into krest, Ha into Hrest.
    apply Ok_inj in H. subst kl.
    destruct (IH _ Hrest) as [<- HF]. split; [done |]. by constructor.
Qed.

Lemma with_keys_total l :
  Forall (fun f => is_ok (sort_key f) = true) l ->
  exists kl, with_keys l = Ok kl.
Proof.
  induction 1 as [| f l Hf _ [kl IH]]; [by eexists |].
  cbn [with_keys]. destruct (sort_key f) as [k|]; [| done].
  rewrite IH. by eexists.
Qed.

Lemma with_keys_raises l f :
  f ∈ l -> (exists e, sort_key f = Raise e) -> exists e, with_keys l = Raise e.
Proof.
  intros Hin [e He]. induction l as [| g l IH]; [by apply elem_of_nil in Hin |].
  cbn [with_keys]. apply elem_of_cons in Hin as [<- | Hin].
  - rewrite He. by eexists.
  - destruct (sort_key g) as [k|e']; [| by eexists].
    cbn [mbind result_bind]. destruct (IH Hin) as [e' ->]. by eexists.
Qed.

Lemma keyed_sorted_newest_first kl :
  Forall (fun kf => sort_key kf.2 = Ok kf.1) kl ->
  StronglySorted key_le kl ->
  newest_first kl.*2.
Proof.
  intros HF. induction 1 as [| kf kl _ IH Hle]; [constructor |].
  apply Forall_cons in HF as [Hk HF]. cbn. constructor; [by apply IH |].
  rewrite Forall_fmap. rewrite Forall_forall in HF |- *.
  rewrite Forall_forall in Hle.
  intros kg Hin. cbn. exists (num_neg kf.1), (num_neg kg.1).
  unfold recency_key. rewrite Hk, (HF _ Hin).
  repeat split. apply num_neg_leb, Hle, Hin.
Qed.

(** The sort returns a permutation of its input, newest first; it returns
    whenever every key can be computed. *)
Lemma sort_features_Ok l l' :
  sort_features l = Ok l' -> l ≡ₚ l' /\ newest_first l'.
Proof.
  unfold sort_features. intros H. bind_inv H. rename a into kl.
  apply Ok_inj in H. subst l'.
  destruct (with_keys_Ok _ _ Ha) as [<- HF]. split.
  - apply fmap_Permutation, stable_sort_perm.
  - apply keyed_sorted_newest_first; [| apply stable_sort_sorted].
    by rewrite <- stable_sort_perm.
Qed.

Lemma sort_features_total l :
  Forall (fun f => is_ok (sort_key f) = true) l ->
  exists l', sort_features l = Ok l'.
Proof.
  intros H. destruct (with_keys_total _ H) as [kl Hkl].
  unfold sort_features. rewrite Hkl. by eexists.
Qed.

(** *** The sort key *)

Lemma sort_key_epoch f n :
  epoch_key f = Some n -> sort_key f = Ok (num_neg n).
Proof.
  unfold epoch_key, sort_key. cbv zeta. intros H.
  destruct (as_number _) as [k|]; [| done].
  destruct (num_ltb _ k); [| done]. by apply (inj Some) in H as ->.
Qed.

Lemma int_attr_or_zero f k z :
  int_attr f k = Some z ->
  py_or (dict_get_or (attributes f) k (SInt 0)) (SInt 0) = SInt z.
Proof.
  unfold int_attr, dict_get_or, py_or.
  destruct (attributes f !! k) as [[| b | z' | x | t] |]; cbn;
    intros [= <-]; try done.
  by destruct (Z.eqb_spec z' 0) as [-> |].
Qed.

Lemma month_attr_int f m :
  month_attr f = Some m ->
  py_int
    (py_or
       (let month := dict_get_or (attributes f) "OCC_MONTH" (SStr "") in
        match month with
        | SStr s => SInt (default 0%Z (MONTH_NAME_TO_NUM !! s))
        | _ => month
        end) (SInt 0))
  = Ok m.
Proof.
  unfold month_attr, dict_get_or, py_or. cbv zeta.
  destruct (attributes f !! "OCC_MONTH") as [[| b | z' | x | t] |];
    intros [= <-]; try done.
  - cbn. by destruct (Z.eqb_spec z' 0) as [-> |].
  - cbn [default id py_truthy].
    by destruct (Z.eqb_spec (from_option id 0%Z (MONTH_NAME_TO_NUM !! t)) 0)
      as [-> |].
Qed.

Lemma py_int_or_zero z : py_int (py_or (SInt z) (SInt 0)) = Ok z.
Proof. unfold py_or. cbn. by destruct (Z.eqb_spec z 0) as [-> |]. Qed.

Lemma sort_key_composite f y m d h :
  epoch_key f = None ->
  int_attr f "OCC_YEAR" = Some y -> month_attr f = Some m ->
  int_attr f "OCC_DAY" = Some d -> int_attr f "OCC_HOUR" = Some h ->
  sort_key f
  = Ok (NInt (- (y * 100000000 + m * 1000000 + d * 10000 + h * 100))).
Proof.
  intros He Hy Hm Hd Hh. unfold sort_key. cbv zeta.
  unfold epoch_key in He. rewrite He.
  pose proof (month_attr_int _ _ Hm) as Hm'. cbv zeta in Hm'.
  rewrite (int_attr_or_zero _ _ _ Hy), (int_attr_or_zero _ _ _ Hd),
    (int_attr_or_zero _ _ _ Hh), Hm'.
  cbn [as_number mbind result_bind py_int num_mul_1e8 num_add_int num_neg].
  by rewrite !py_int_or_zero.
Qed.

(** C5.  When [fetch_features] returns a list, the list is a rearrangement
    of what the accepted strategy accumulated and is sorted descending by
    recency key, newest first; the sort returns whenever every key can be
    computed.  The recency key of a feature is its OCC_DATE (else
    REPORT_DATE) when that is numeric and greater than 1,000,000,000;
    otherwise, for integer (or absent) components, it is
    year * 100000000 + month * 1000000 + day * 10000 + hour * 100, with the
    month name mapped to its number (0 when unrecognized) and every absent
    component counted as zero. *)
Theorem fetched_features_newest_first :
  (forall endpoint_url theft_type st st' l,
     fetch_features endpoint_url theft_type st = (st', Ok l) ->
     newest_first l)
  /\ (forall endpoint_url where_strategies st st' l,
        fetch_with endpoint_url where_strategies st = (st', Ok l) ->
        exists all_features,
          try_strategies endpoint_url where_strategies [] st
          = (st', all_features)
          /\ all_features ≡ₚ l /\ newest_first l)
  /\ (forall l,
        Forall (fun f => is_ok (sort_key f) = true) l ->
        exists l', sort_features l = Ok l')
  /\ (forall f n, epoch_key f = Some n -> recency_key f = Ok n)
  /\ (forall f y m d h,
        epoch_key f = None ->
        int_attr f "OCC_YEAR" = Some y -> month_attr f = Some m ->
        int_attr f "OCC_DAY" = Some d -> int_attr f "OCC_HOUR" = Some h ->
        recency_key f
        = Ok (NInt (y * 100000000 + m * 1000000 + d * 10000 + h * 100))).
Proof.
  assert (Hwith : forall endpoint_url where_strategies st st' l,
            fetch_with endpoint_url where_strategies st = (st', Ok l) ->
            exists all_features,
              try_strategies endpoint_url where_strategies [] st
              = (st', all_features)
              /\ all_features ≡ₚ l /\ newest_first l).
  { intros url strategies st st' l H.
    destruct (fetch_with_result url strategies st) as (st1 & acc & Ht & Hf).
    rewrite Hf in H. injection H as -> H. exists acc. split; [done |].
    destruct acc as [| f acc].
    - apply Ok_inj in H. subst l. split; [done | constructor].
    - by apply sort_features_Ok. }
  split; [| split; [done | split; [| split]]].
  - intros url theft_type st st' l. unfold fetch_features.
    destruct (index 0 "services/" url); [| done].
    destruct (discover_fields url st) as [st1 available]. intros H.
    apply Hwith in H. destruct H as (acc & _ & _ & H). exact H.
  - apply sort_features_total.
  - intros f n H. unfold recency_key. rewrite (sort_key_epoch _ _ H).
    cbn. by rewrite num_neg_involutive.
  - intros f y m d h He Hy Hm Hd Hh. unfold recency_key.
    rewrite (sort_key_composite _ _ _ _ _ He Hy Hm Hd Hh).
    cbn. by rewrite Z.opp_involutive.
Qed.

(** ** Strategy fallback *)

Lemma paginate_first_request_raises endpoint_url where_clause st st' e :
  http_get_json endpoint_url (page_params where_clause 0) st
  = (st', Raise e) ->
  paginate endpoint_url where_clause st = (st', [], Raised e).
Proof.
  intros H. apply (paginate_loop_paginate 1).
  by apply paginate_loop_raise.
Qed.

Lemma paginate_single_page endpoint_url where_clause st st' data :
  http_get_json endpoint_url (page_params where_clause 0) st
  = (st', Ok data) ->
  stops_after [] data ->
  paginate endpoint_url where_clause st = (st', features data, Break).
Proof.
  intros H Hs. apply (paginate_loop_paginate 1).
  rewrite (paginate_loop_page _ _ _ _ _ _ _ _ H).
  apply stops_after_dec in Hs. by rewrite Hs.
Qed.

Lemma paginate_second_request_raises endpoint_url where_clause st st1 st2
    data e :
  http_get_json endpoint_url (page_params where_clause 0) st
  = (st1, Ok data) ->
  ~ stops_after [] data ->
  http_get_json endpoint_url (page_params where_clause PAGE_SIZE) st1
  = (st2, Raise e) ->
  paginate endpoint_url where_clause st = (st2, features data, Raised e).
Proof.
  intros H1 Hs H2. apply (paginate_loop_paginate 2).
  rewrite (paginate_loop_page _ _ _ _ _ _ _ _ H1).
  rewrite stops_after_dec in Hs. destruct (_ || _); [done |].
  by apply paginate_loop_raise.
Qed.

Lemma fetch_with_rejected endpoint_url pre rest st all_features st1 :
  rejected endpoint_url pre [] st all_features st1 ->
  fetch_with endpoint_url (pre ++ rest) st
  = let '(st', all_features) :=
      try_strategies endpoint_url rest all_features st1 in
    match all_features with
    | [] => (st', Ok [])
    | _ => (st', sort_features all_features)
    end.
Proof.
  intros H. unfold fetch_with.
  by rewrite (try_strategies_rejected _ _ _ _ _ _ _ H).
Qed.

(** C4.  A strategy that raises, or whose pagination ends with nothing
    accumulated, is followed by the next strategy, and its exception goes no
    further; the first strategy whose pagination ends with features is
    accepted, and the service is not called again; when every strategy is
    rejected with nothing accumulated, the Fetcher returns the empty list
    and does not raise.  What an accepted strategy accumulated is then
    sorted, outside every handler.  When the first strategy's filter makes
    the service fail, the strategies after it are rejected too, and the
    unconditional fallback answers one page of 10 features, the Fetcher
    returns exactly those 10 features, newest first, provided the sort key
    of each of them can be computed; when the key of one of them raises,
    the Fetcher raises.  Whatever the strategies and the service, the
    strategy loop returns the empty list or the sort of what one strategy
    accumulated: no exception of the service leaves it. *)
Theorem strategy_fallback :
  (forall endpoint_url where_clause description rest all_features st st'
          acc e,
     paginate endpoint_url where_clause st = (st', acc, Raised e) ->
     try_strategies endpoint_url ((where_clause, description) :: rest)
       all_features st
     = try_strategies endpoint_url rest acc st')
  /\ (forall endpoint_url where_clause description rest all_features st st',
        paginate endpoint_url where_clause st = (st', [], Break) ->
        try_strategies endpoint_url ((where_clause, description) :: rest)
          all_features st
        = try_strategies endpoint_url rest [] st')
  /\ (forall endpoint_url where_clause description rest all_features st st'
             acc,
        paginate endpoint_url where_clause st = (st', acc, Break) ->
        acc <> [] ->
        try_strategies endpoint_url ((where_clause, description) :: rest)
          all_features st
        = (st', acc)
        /\ forall pre st0,
             rejected endpoint_url pre [] st0 all_features st ->
             fetch_with endpoint_url
               (pre ++ (where_clause, description) :: rest) st0
             = (st', sort_features acc))
  /\ (forall endpoint_url where_strategies st st',
        rejected endpoint_url where_strategies [] st [] st' ->
        fetch_with endpoint_url where_strategies st = (st', Ok []))
  /\ (forall endpoint_url where1 description1 between description st st1
             all_features st2 st3 e data,
        http_get_json endpoint_url (page_params where1 0) st
        = (st1, Raise e) ->
        rejected endpoint_url between [] st1 all_features st2 ->
        http_get_json endpoint_url (page_params "1=1" 0) st2
        = (st3, Ok data) ->
        length (features data) = 10 ->
        no_more_flag data = true ->
        (Forall (fun f => is_ok (sort_key f) = true) (features data) ->
         exists l,
           fetch_with endpoint_url
             ((where1, description1) :: between ++ [("1=1", description)]) st
           = (st3, Ok l)
           /\ features data ≡ₚ l /\ length l = 10 /\ newest_first l)
        /\ (forall f e',
              f ∈ features data -> sort_key f = Raise e' ->
              exists e'',
                fetch_with endpoint_url
                  ((where1, description1) :: between
                   ++ [("1=1", description)]) st
                = (st3, Raise e'')))
  /\ (forall endpoint_url where_strategies st,
        exists st' all_features,
          try_strategies endpoint_url where_strategies [] st
          = (st', all_features)
          /\ fetch_with endpoint_url where_strategies st
             = (st', match all_features with
                     | [] => Ok []
                     | _ => sort_features all_features
                     end)).
Proof.
  split; [| split; [| split; [| split; [| split]]]]; [| | | | |
    apply fetch_with_result].
  - intros url w d rest all st st' acc e Hp.
    by rewrite try_strategies_cons, Hp.
  - intros url w d rest all st st' Hp.
    by rewrite try_strategies_cons, Hp.
  - intros url w d rest all st st' acc Hp Hne.
    split; [by eapply try_strategies_accept |].
    intros pre st0 Hrej.
    rewrite (fetch_with_rejected _ _ _ _ _ _ Hrej).
    rewrite (try_strategies_accept _ _ _ _ _ _ _ _ Hp Hne).
    by destruct acc.
  - intros url strategies st st' Hrej.
    rewrite <- (app_nil_r strategies).
    by rewrite (fetch_with_rejected _ _ _ _ _ _ Hrej).
  - intros url w1 d1 between d st st1 all st2 st3 e data H1 Hrej H2 Hlen Hflag.
    assert (Hne : features data <> []) by (by destruct (features data)).
    assert (Hf : fetch_with url ((w1, d1) :: between ++ [("1=1", d)]) st
                 = (st3, sort_features (features data))).
    { assert (Hpre : rejected url ((w1, d1) :: between) [] st all st2).
      { eapply rejected_cons; [by apply paginate_first_request_raises | |
                               exact Hrej].
        done. }
      rewrite app_comm_cons, (fetch_with_rejected _ _ _ _ _ _ Hpre).
      assert (Hp : paginate url "1=1" st2 = (st3, features data, Break)).
      { apply paginate_single_page; [done |].
        right; right. split; [done |]. rewrite Hlen. by vm_compute. }
      rewrite (try_strategies_accept _ _ d [] _ _ _ _ Hp Hne).
      by destruct (features data). }
    rewrite Hf. split.
    + intros Hk. destruct (sort_features_total _ Hk) as [l Hl].
      exists l. split; [by rewrite Hl |].
      apply sort_features_Ok in Hl as [Hp Hs].
      split; [done |]. split; [by rewrite <- Hp | done].
    + intros f e' Hin Hr. unfold sort_features.
      destruct (with_keys_raises (features data) f Hin) as [e'' ->];
        [by exists e' | by exists e''].
Qed.

(** [fetch_features] is the strategy loop over the strategies built from
    the discovered fields, for an endpoint such as those of [ENDPOINTS]. *)
Lemma fetch_features_strategies endpoint_url theft_type st st0
    available_fields :
  index 0 "services/" endpoint_url <> None ->
  discover_fields endpoint_url st = (st0, available_fields) ->
  fetch_features endpoint_url theft_type st
  = fetch_with endpoint_url
      (build_where_clauses theft_type (fields_or_guess available_fields)) st0.
Proof.
  intros Hi Hd. unfold fetch_features.
  destruct (index 0 "services/" endpoint_url); [| done].
  by rewrite Hd.
Qed.

(** The last strategy is always the unconditional one. *)
Lemma build_where_clauses_last theft_type available_fields :
  exists pre,
    build_where_clauses theft_type available_fields
    = pre ++ [("1=1", "unfiltered (all records)")].
Proof.
  unfold build_where_clauses. cbv zeta.
  eexists. rewrite !app_assoc. reflexivity.
Qed.

(** C10.  When the strategies before the last are rejected and the last one
    raises in the middle of its pagination, after one or more features were
    accumulated, the Fetcher sorts and returns those features, exactly as it
    does when that strategy ends without an exception: [all_features] is
    reset only when a strategy starts.  Such a run exists as soon as a first
    page does not stop the loop and the request for the second page fails.
    For [fetch_features] itself the last strategy is the unconditional
    one. *)
Theorem last_strategy_partial_results_returned :
  (forall endpoint_url pre where_clause description st all_features st1 st2
          acc e,
     rejected endpoint_url pre [] st all_features st1 ->
     paginate endpoint_url where_clause st1 = (st2, acc, Raised e) ->
     acc <> [] ->
     fetch_with endpoint_url (pre ++ [(where_clause, description)]) st
     = (st2, sort_features acc))
  /\ (forall endpoint_url pre where_clause description st all_features st1
             st2 acc,
        rejected endpoint_url pre [] st all_features st1 ->
        paginate endpoint_url where_clause st1 = (st2, acc, Break) ->
        acc <> [] ->
        fetch_with endpoint_url (pre ++ [(where_clause, description)]) st
        = (st2, sort_features acc))
  /\ (forall endpoint_url where_clause st st1 st2 data e,
        http_get_json endpoint_url (page_params where_clause 0) st
        = (st1, Ok data) ->
        ~ stops_after [] data ->
        http_get_json endpoint_url (page_params where_clause PAGE_SIZE) st1
        = (st2, Raise e) ->
        paginate endpoint_url where_clause st
        = (st2, features data, Raised e)
        /\ features data <> [])
  /\ (forall endpoint_url theft_type st st0 available_fields pre
             all_features st1 st2 acc e,
        index 0 "services/" endpoint_url <> None ->
        discover_fields endpoint_url st = (st0, available_fields) ->
        build_where_clauses theft_type (fields_or_guess available_fields)
        = pre ++ [("1=1", "unfiltered (all records)")] ->
        rejected endpoint_url pre [] st0 all_features st1 ->
        paginate endpoint_url "1=1" st1 = (st2, acc, Raised e) ->
        acc <> [] ->
        fetch_features endpoint_url theft_type st
        = (st2, sort_features acc)).
Proof.
  assert (Hlast : forall endpoint_url pre where_clause description st
                         all_features st1 st2 acc e,
            rejected endpoint_url pre [] st all_features st1 ->
            paginate endpoint_url where_clause st1 = (st2, acc, Raised e) ->
            acc <> [] ->
            fetch_with endpoint_url (pre ++ [(where_clause, description)]) st
            = (st2, sort_features acc)).
  { intros url pre w d st all st1 st2 acc e Hrej Hp Hne.
    rewrite (fetch_with_rejected _ _ _ _ _ _ Hrej).
    rewrite try_strategies_cons, Hp. cbn [try_strategies].
    by destruct acc. }
  split; [exact Hlast | split; [| split]]; [| |
    intros url tt st st0 af pre all st1 st2 acc e Hi Hd Hb Hrej Hp Hne;
    rewrite (fetch_features_strategies _ _ _ _ _ Hi Hd), Hb;
    by eapply Hlast].
  - intros url pre w d st all st1 st2 acc Hrej Hp Hne.
    rewrite (fetch_with_rejected _ _ _ _ _ _ Hrej).
    rewrite (try_strategies_accept _ _ _ _ _ _ _ _ Hp Hne).
    by destruct acc.
  - intros url w st st1 st2 data e H1 Hs H2.
    split; [by eapply paginate_second_request_raises |].
    intros Hnil. apply Hs. left. by rewrite Hnil.
Qed.

(** ** Record ids *)

Lemma string_of_Z_inj (a b : Z) : string_of_Z a = string_of_Z b -> a = b.
Proof.
  unfold string_of_Z. intros H.
  assert (Hisi : forall z,
            NilZero.int_of_string (NilZero.string_of_int (Z.to_int z))
            = Some (Z.to_int z)).
  { intros z. apply NilZero.isi; destruct z; cbn; try discriminate;
      intros [= E]; by apply Unsigned.to_uint_nonnil in E. }
  apply DecimalZ.to_int_inj.
  apply (inj Some). by rewrite <- !Hisi, H.
Qed.

Lemma first_of_explicit attrs names dflt :
  _first_of attrs names SNone <> SNone ->
  _first_of attrs names dflt = _first_of attrs names SNone.
Proof.
  rewrite !first_of_head. by destruct (head _).
Qed.

Lemma first_of_missing attrs names dflt :
  _first_of attrs names SNone = SNone ->
  _first_of attrs names dflt = dflt.
Proof.
  induction names as [| k names IH]; [done |]. cbn [_first_of].
  destruct (is_none (dict_get attrs k)) eqn:E; [exact IH |].
  intros H. by rewrite H in E.
Qed.

Lemma sublist_Forall_of {A} (P : A -> Prop) (l1 l2 : list A) :
  sublist l1 l2 -> Forall P l2 -> Forall P l1.
Proof.
  induction 1 as [| x l1 l2 _ IH | x l1 l2 _ IH]; intros H; [done | |].
  - apply Forall_cons in H as [? ?]. constructor; auto.
  - apply Forall_cons in H as [? ?]. auto.
Qed.

Lemma emitted_run_ids theft_type n fs rs :
  emitted_run theft_type n fs rs ->
  exists kept,
    sublist kept fs /\ r_id <$> rs = ids_from theft_type n kept.
Proof.
  induction 1 as [| n f fs rs _ (kept & Hs & Hi)
                    | n f fs r rs He _ (kept & Hs & Hi)].
  - by exists [].
  - exists kept. split; [by constructor | done].
  - exists (f :: kept). split; [by constructor |].
    destruct He as (lat & lng & He). cbn. f_equal; [tauto | done].
Qed.

Lemma ids_from_explicit theft_type kept : forall n,
  Forall (fun f => explicit_id f <> SNone) kept ->
  ids_from theft_type n kept
  = (fun f => theft_type +:+ "-" +:+ py_str (explicit_id f)) <$> kept.
Proof.
  induction kept as [| f kept IH]; intros n H; [done |].
  apply Forall_cons in H as [Hf H]. cbn. rewrite (IH _ H).
  unfold resolved_id. by rewrite first_of_explicit.
Qed.

Lemma ids_from_missing theft_type kept : forall n,
  Forall (fun f => explicit_id f = SNone) kept ->
  ids_from theft_type n kept
  = (fun i => theft_type +:+ "-" +:+ string_of_Z (Z.of_nat i))
    <$> seq n (length kept).
Proof.
  induction kept as [| f kept IH]; intros n H; [done |].
  apply Forall_cons in H as [Hf H]. cbn. rewrite (IH _ H).
  unfold resolved_id. by rewrite first_of_missing.
Qed.

(** C7, as amended.  The id of every emitted record is the category tag, a
    hyphen and the resolved record identifier: EVENT_UNIQUE_ID, else
    OBJECTID, else the number of records emitted before it.  The ids are
    pairwise distinct when every raw feature carries an identifier and the
    identifiers are pairwise distinct as strings, and when no raw feature
    carries an identifier: the Transformer removes no duplicate. *)
Theorem record_ids_prefixed (raw_features : list feature)
    (theft_type : string) (s : run_state) :
  process_features raw_features theft_type = Ok s ->
  (exists kept,
     sublist kept raw_features
     /\ r_id <$> clean_records s = ids_from theft_type 0 kept)
  /\ (Forall (fun f => explicit_id f <> SNone) raw_features ->
      NoDup ((fun f => py_str (explicit_id f)) <$> raw_features) ->
      NoDup (r_id <$> clean_records s))
  /\ (Forall (fun f => explicit_id f = SNone) raw_features ->
      NoDup (r_id <$> clean_records s)).
Proof.
  intros H. apply process_from_Ok in H.
  destruct H as (_ & new & Hn & Hr). cbn in Hn, Hr. subst new.
  apply emitted_run_ids in Hr as (kept & Hs & Hi).
  split; [by exists kept | split].
  - intros Hall Hnd.
    rewrite Hi, ids_from_explicit by by eapply sublist_Forall_of.
    rewrite (list_fmap_compose (fun f => py_str (explicit_id f))
               (fun t => theft_type +:+ "-" +:+ t)).
    apply NoDup_fmap_2.
    + intros a b E. by apply String.app_inj, String.app_inj in E.
    + eapply sublist_NoDup; [exact Hnd |]. by apply fmap_sublist.
  - intros Hall.
    rewrite Hi, ids_from_missing by by eapply sublist_Forall_of.
    apply NoDup_fmap_2; [| apply NoDup_seq].
    intros a b E. apply String.app_inj, String.app_inj in E.
    by apply string_of_Z_inj, Nat2Z.inj in E.
Qed.

(** ** Malformed fields *)

(** A feature that passes the coordinate and window tests with a day that
    [int] rejects makes the iteration raise: the conversion of the day, like
    that of the year and of the hour, is outside every [try]. *)
Lemma process_feature_unparseable_day theft_type s f lat lng month date_str
    y e :
  resolve_coords f = Ok (lat, lng) ->
  both_zero lat lng = false -> in_box lat lng = true ->
  parse_month (resolved_month f) = Ok month ->
  parse_date_string (resolved_date f) (resolved_year f) (SInt month)
    (resolved_day f) = Ok date_str ->
  window_check f month = Ok false ->
  (if py_truthy (resolved_year f) then py_int (resolved_year f)
   else Ok now_year) = Ok y ->
  py_truthy (resolved_day f) = true ->
  py_int (resolved_day f) = Raise e ->
  process_feature theft_type s f = Raise e.
Proof.
  intros Hc Hz Hb Hm Hd Hw Hy Ht He. unfold process_feature.
  rewrite Hc. cbn [mbind result_bind]. rewrite Hz, Hb. cbn [negb].
  fold (resolved_month f) (resolved_year f) (resolved_date f)
    (resolved_day f).
  rewrite Hm. cbn [mbind result_bind]. rewrite Hd. cbn [mbind result_bind].
  unfold window_check in Hw. rewrite Hw. cbn [mbind result_bind].
  rewrite Hy. cbn [mbind result_bind]. by rewrite Ht, He.
Qed.

(** * Further properties of the code *)

(** ** The retry loop *)

Lemma http_get_json_loop_Ok remaining req st st' data :
  http_get_json_loop remaining req st = (st', Ok data) ->
  has_error data = false
  /\ exists st0, transport st0 req = (st', Body data).
Proof.
  revert st. induction remaining as [| n IH]; intros st H; [done |].
  cbn [http_get_json_loop] in H.
  destruct (transport st req) as [st1 a] eqn:Et.
  destruct a as [| | body].
  - destruct n; [done | by apply IH in H].
  - done.
  - destruct (has_error body) eqn:Eb.
    + destruct n; [done | by apply IH in H].
    + injection H as <- <-. split; [done | by exists st].
Qed.

(** X1.  What [http_get_json] returns is a body that the service sent in
    answer to this very request, and it has no "error" member: an error
    payload is never handed to the caller as a success. *)
Theorem http_get_json_returns_clean_body url params st st' data :
  http_get_json url params st = (st', Ok data) ->
  has_error data = false
  /\ exists st0, transport st0 (Request url params) = (st', Body data).
Proof. apply http_get_json_loop_Ok. Qed.

(** ** The Field Resolver, continued *)

Lemma first_of_app attrs l1 l2 dflt :
  _first_of attrs (l1 ++ l2) dflt
  = _first_of attrs l1 (_first_of attrs l2 dflt).
Proof.
  induction l1 as [| k l1 IH]; [done |]. cbn [app _first_of].
  by rewrite IH.
Qed.

Lemma first_of_value attrs names dflt :
  _first_of attrs names dflt = dflt
  \/ exists k, k ∈ names
               /\ attrs !! k = Some (_first_of attrs names dflt)
               /\ _first_of attrs names dflt <> SNone.
Proof.
  induction names as [| k names IH]; [by left |]. cbn [_first_of].
  destruct (is_none (dict_get attrs k)) eqn:En.
  - destruct IH as [IH | (k' & Hin & IH)]; [by left |].
    right. exists k'. split; [by right | done].
  - right. exists k. split; [by left |].
    split; [| by intros H; rewrite H in En].
    unfold dict_get in *. by destruct (attrs !! k).
Qed.

(** X2.  Resolving over a concatenation of candidate lists is resolving over
    the first list with, as default, the result of resolving over the
    second.  The result is the default or the non-null value of one of the
    candidates, so that with a non-null default the resolver never returns
    null. *)
Theorem first_of_chaining (attrs : gmap string scalar)
    (l1 l2 : list string) (dflt : scalar) :
  _first_of attrs (l1 ++ l2) dflt
  = _first_of attrs l1 (_first_of attrs l2 dflt)
  /\ (_first_of attrs l1 dflt = dflt
      \/ exists k, k ∈ l1
                   /\ attrs !! k = Some (_first_of attrs l1 dflt)
                   /\ _first_of attrs l1 dflt <> SNone)
  /\ (dflt <> SNone -> _first_of attrs l1 dflt <> SNone).
Proof.
  split; [apply first_of_app | split; [apply first_of_value |]].
  intros Hd. destruct (first_of_value attrs l1 dflt) as [-> | (k & _ & _ & H)];
    done.
Qed.

(** ** Months *)

Lemma MONTH_NAME_TO_NUM_range (s : string) (m : Z) :
  MONTH_NAME_TO_NUM !! s = Some m -> (1 <= m <= 12)%Z.
Proof.
  unfold MONTH_NAME_TO_NUM. intros H.
  apply elem_of_list_to_map_2 in H.
  repeat (apply elem_of_cons in H as [[= -> ->] | H]; [lia |]).
  by apply elem_of_nil in H.
Qed.

(** X3.  [parse_month] maps a month name to its number and any other string
    to 1, so that a string always gives a month between 1 and 12; null
    gives 1; a number is passed through [int] without any range check, and
    the only month that makes it raise is an infinite float. *)
Theorem parse_month_cases :
  (forall s, exists m, parse_month (SStr s) = Ok m /\ (1 <= m <= 12)%Z)
  /\ (forall s m, MONTH_NAME_TO_NUM !! s = Some m ->
                  parse_month (SStr s) = Ok m)
  /\ (forall s, MONTH_NAME_TO_NUM !! s = None ->
                parse_month (SStr s) = Ok 1%Z)
  /\ parse_month SNone = Ok 1%Z
  /\ (forall z, parse_month (SInt z) = Ok z)
  /\ (forall b, parse_month (SBool b) = Ok (Z.b2z b))
  /\ (forall q, parse_month (SFloat (FFin q)) = Ok (Qtrunc q))
  /\ (forall v e, parse_month v = Raise e ->
                  e = OverflowError /\ exists neg, v = SFloat (FInf neg)).
Proof.
  repeat split; try done.
  - intros s. cbn [parse_month].
    destruct (MONTH_NAME_TO_NUM !! s) as [m|] eqn:E.
    + exists m. split; [done |]. by eapply MONTH_NAME_TO_NUM_range.
    + exists 1%Z. split; [done | lia].
  - intros s m H. cbn [parse_month]. by rewrite H.
  - intros s H. cbn [parse_month]. by rewrite H.
  - destruct v as [| b | z | [neg | q] | s]; cbn in H; congruence.
  - destruct v as [| b | z | [neg | q] | s]; cbn in H; try done.
    by exists neg.
Qed.

(** ** The Transformer, continued *)

Lemma process_from_app theft_type l1 l2 : forall s,
  process_from theft_type s (l1 ++ l2)
  = (s' ← process_from theft_type s l1; process_from theft_type s' l2).
Proof.
  induction l1 as [| f l1 IH]; intros s; [done |].
  cbn [app process_from].
  destruct (process_feature theft_type s f) as [s1|e]; [| done].
  cbn [mbind result_bind]. apply IH.
Qed.

Lemma process_from_accounting theft_type fs : forall s s',
  process_from theft_type s fs = Ok s' ->
  length (clean_records s') + discarded_coords s' + discarded_date s'
  = length (clean_records s) + discarded_coords s + discarded_date s
    + length fs
  /\ discarded_other s' = discarded_other s.
Proof.
  induction fs as [| f fs IH]; intros s s' H; cbn [process_from] in H.
  - apply Ok_inj in H. subst s'. cbn. lia.
  - bind_inv H. rename a into s1. apply IH in H as [H1 H2].
    apply process_feature_Ok in Ha.
    destruct Ha as [[_ ->] | [_ [[_ ->] | (r & _ & ->)]]];
      cbn [skip_bad_coords skip_out_of_window emit clean_records
           discarded_coords discarded_date discarded_other length] in *;
      rewrite ?length_app in *; cbn [length] in *; split; lia.
Qed.

(** X4.  When [process_features] returns, every raw feature is accounted
    for exactly once: it became a record, or it was counted as having bad
    coordinates, or as being out of the window.  The fourth counter of the
    report, "other", is never incremented. *)
Theorem process_features_accounting raw_features theft_type s :
  process_features raw_features theft_type = Ok s ->
  length (clean_records s) + discarded_coords s + discarded_date s
  = length raw_features
  /\ discarded_other s = 0.
Proof.
  intros H. apply process_from_accounting in H. cbn in H. lia.
Qed.

(** X5.  The loop of [process_features] has no handler of its own: when one
    feature raises, in the state that the features before it left, the
    whole call raises that exception, whatever the records already built
    and whatever the features after it. *)
Theorem raising_feature_aborts_batch theft_type before f after s e :
  process_features before theft_type = Ok s ->
  process_feature theft_type s f = Raise e ->
  process_features (before ++ f :: after) theft_type = Raise e.
Proof.
  unfold process_features. intros Hb Hf.
  rewrite process_from_app, Hb. cbn [mbind result_bind process_from].
  by rewrite Hf.
Qed.

(** *** The text fields *)

Lemma lstrip_starts s : starts_with_space (lstrip is_space s) = false.
Proof.
  induction s as [| c s IH]; [done |]. cbn [lstrip].
  destruct (is_space c) eqn:E; [exact IH |]. exact E.
Qed.

Lemma rstrip_starts s :
  starts_with_space s = false ->
  starts_with_space (rstrip is_space s) = false.
Proof.
  destruct s as [| c s]; [done |]. cbn [starts_with_space rstrip].
  intros H. destruct (rstrip is_space s); [by rewrite H | exact H].
Qed.

Lemma rstrip_ends s : ends_with_space (rstrip is_space s) = false.
Proof.
  induction s as [| c s IH]; [done |]. cbn [rstrip].
  destruct (rstrip is_space s) as [| c' t] eqn:E.
  - destruct (is_space c) eqn:Ec; [done | exact Ec].
  - exact IH.
Qed.

Lemma strip_trimmed s : trimmed (strip s).
Proof.
  split; [apply rstrip_starts, lstrip_starts | apply rstrip_ends].
Qed.

Lemma process_feature_texts theft_type s f s' :
  process_feature theft_type s f = Ok s' ->
  clean_records s' = clean_records s
  \/ exists r,
       clean_records s' = clean_records s ++ [r]
       /\ r_type r = theft_type
       /\ r_neighbourhood r = strip (py_str (resolved_neighbourhood f))
       /\ r_premiseType r = strip (py_str (resolved_premise f))
       /\ r_status r = strip (py_str (resolved_status f)).
Proof.
  unfold process_feature. intros H.
  bind_inv H. destruct a as [lat lng].
  destruct (both_zero lat lng); [left; apply Ok_inj in H; by subst s' |].
  destruct (negb (in_box lat lng)); [left; apply Ok_inj in H; by subst s' |].
  bind_inv H. rename a into month, Ha0 into Hm.
  bind_inv H. rename a into date_str, Ha0 into Hd.
  bind_inv H. rename a into old, Ha0 into Hw.
  destruct old; [left; apply Ok_inj in H; by subst s' |].
  right. bind_inv H. bind_inv H. bind_inv H. apply Ok_inj in H. subst s'.
  eexists. split; [reflexivity |]. done.
Qed.

Lemma process_from_texts theft_type (P : clean_record -> Prop) fs :
  (forall f r,
     f ∈ fs ->
     r_type r = theft_type ->
     r_neighbourhood r = strip (py_str (resolved_neighbourhood f)) ->
     r_premiseType r = strip (py_str (resolved_premise f)) ->
     r_status r = strip (py_str (resolved_status f)) ->
     P r) ->
  forall s s',
    process_from theft_type s fs = Ok s' ->
    Forall P (clean_records s) -> Forall P (clean_records s').
Proof.
  induction fs as [| f fs IH]; intros HP s s' H Hs; cbn [process_from] in H.
  - apply Ok_inj in H. by subst s'.
  - bind_inv H. rename a into s1.
    apply (fun HP' => IH HP' _ _ H); [intros g r Hg; apply HP; by right |].
    apply process_feature_texts in Ha.
    destruct Ha as [-> | (r & -> & Ht & Hn & Hp & Hst)]; [done |].
    apply Forall_app. split; [done |]. constructor; [| done].
    apply (HP f r); [by left | done..].
Qed.

(** X6.  Every record that [process_features] returns has the category as
    its type, and its neighbourhood, premise type and status are the
    resolved values of some raw feature, converted to strings and stripped:
    none of them begins or ends with (ASCII) white space. *)
Theorem record_texts_stripped raw_features theft_type s :
  process_features raw_features theft_type = Ok s ->
  Forall
    (fun r =>
       r_type r = theft_type
       /\ trimmed (r_neighbourhood r) /\ trimmed (r_premiseType r)
       /\ trimmed (r_status r)
       /\ exists f,
            f ∈ raw_features
            /\ r_neighbourhood r = strip (py_str (resolved_neighbourhood f))
            /\ r_premiseType r = strip (py_str (resolved_premise f))
            /\ r_status r = strip (py_str (resolved_status f)))
    (clean_records s).
Proof.
  intros H. eapply process_from_texts; [| exact H | constructor].
  intros f r Hf Ht Hn Hp Hs. split; [done |].
  split; [rewrite Hn; apply strip_trimmed |].
  split; [rewrite Hp; apply strip_trimmed |].
  split; [rewrite Hs; apply strip_trimmed |]. by exists f.
Qed.

(** *** Features without a year and a month *)

Lemma first_of_absent attrs k dflt :
  present attrs k = None -> _first_of attrs [k] dflt = dflt.
Proof.
  unfold present. cbn [_first_of]. unfold dict_get.
  destruct (attrs !! k) as [v|]; simpl; [| done].
  by destruct (is_none v).
Qed.

Lemma window_check_default f :
  resolved_year f = SInt now_year ->
  window_check f 1
  = Ok (now_year * 100 + 1 <? cutoff_year * 100 + cutoff_month)%Z.
Proof.
  intros Hy. unfold window_check. rewrite before_cutoff_month, Hy.
  cbn [py_truthy py_int]. by destruct (Z.eqb_spec now_year 0) as [-> |].
Qed.

(** X7.  A feature with good coordinates in which OCC_YEAR and OCC_MONTH are
    absent or null is dated January of the current year.  When the call
    returns, such a feature is therefore dropped as out of the window
    whenever the cutoff lies after January of the current year, and
    otherwise becomes a record with the current year and month 1. *)
Theorem undated_feature_is_january_of_this_year theft_type s f s' :
  present (attributes f) "OCC_YEAR" = None ->
  present (attributes f) "OCC_MONTH" = None ->
  bad_coords f = false ->
  process_feature theft_type s f = Ok s' ->
  if (now_year * 100 + 1 <? cutoff_year * 100 + cutoff_month)%Z
  then s' = skip_out_of_window s
  else exists r, s' = emit s r /\ r_year r = now_year /\ r_month r = 1%Z.
Proof.
  intros Hy Hm Hb H.
  assert (Hy' : resolved_year f = SInt now_year).
  { unfold resolved_year. change (FIELD_MAP !!! "year_field") with ["OCC_YEAR"].
    by apply first_of_absent. }
  assert (Hm' : resolved_month f = SInt 1).
  { unfold resolved_month.
    change (FIELD_MAP !!! "month_field") with ["OCC_MONTH"].
    by apply first_of_absent. }
  pose proof (window_check_default f Hy') as Hw.
  apply process_feature_Ok in H.
  destruct H as [[Hb' _] | [_ [[(month & Hpm & Hwm) ->] | (r & He & ->)]]].
  - congruence.
  - rewrite Hm' in Hpm. cbn in Hpm. apply Ok_inj in Hpm. subst month.
    rewrite Hw in Hwm. apply Ok_inj in Hwm. by rewrite Hwm.
  - destruct He as (lat & lng & _ & _ & _ & Hpm & _ & Hwm & Hyr & _).
    rewrite Hm' in Hpm. cbn in Hpm. apply Ok_inj in Hpm.
    rewrite <- Hpm in Hwm. rewrite Hw in Hwm. apply Ok_inj in Hwm.
    rewrite Hwm. exists r. split; [done |]. split; [| done].
    rewrite Hy' in Hyr. cbn [py_truthy py_int] in Hyr.
    destruct (Z.eqb_spec now_year 0); cbn in Hyr; congruence.
Qed.

(** ** The sort, continued *)

Lemma stable_sort_sorted_id kl :
  StronglySorted key_le kl -> stable_sort kl = kl.
Proof.
  induction 1 as [| x l _ IH Hx]; [done |].
  unfold stable_sort in *. cbn [foldr]. rewrite IH.
  destruct l as [| y l']; [done |]. cbn [insert_by_key].
  apply Forall_cons in Hx as [Hxy _].
  unfold key_le, num_leb in Hxy. unfold num_ltb, fltb. by rewrite Hxy.
Qed.

Lemma with_keys_keyed kl :
  Forall (fun kf => sort_key kf.2 = Ok kf.1) kl -> with_keys kl.*2 = Ok kl.
Proof.
  induction 1 as [| [k f] kl Hk _ IH]; [done |].
  cbn [fmap list_fmap snd with_keys] in *. cbn [fst snd] in Hk.
  rewrite Hk. cbn [mbind result_bind]. by rewrite IH.
Qed.

(** X8.  Sorting is idempotent: what [sort_features] returns is a fixed
    point of it, so that features already newest first are returned in the
    order they came in. *)
Theorem sort_features_idempotent l l' :
  sort_features l = Ok l' -> sort_features l' = Ok l'.
Proof.
  unfold sort_features. intros H. bind_inv H. rename a into kl.
  apply Ok_inj in H. subst l'.
  destruct (with_keys_Ok _ _ Ha) as [_ HF].
  rewrite with_keys_keyed by (by rewrite <- stable_sort_perm).
  cbn [mbind result_bind].
  by rewrite stable_sort_sorted_id by apply stable_sort_sorted.
Qed.

Lemma StronglySorted_after {A} (R : A -> A -> Prop) l1 x l2 :
  StronglySorted R (l1 ++ x :: l2) -> Forall (R x) l2.
Proof.
  induction l1 as [| y l1 IH]; cbn [app]; intros H;
    apply StronglySorted_inv in H as [H1 H2]; [exact H2 | by apply IH].
Qed.

Lemma above_threshold_outranks (t c : Z) (x : pyfloat) :
  (c < t)%Z ->
  fleb (FFin (inject_Z t)) x = true ->
  fltb (FFin (inject_Z c)) x = true.
Proof.
  intros Hc Hx. unfold fltb. apply negb_true_iff.
  destruct x as [[] | q]; try done.
  rewrite fleb_FFin in Hx. apply not_true_is_false. rewrite fleb_FFin.
  intros Hq. assert (H : (inject_Z t <= inject_Z c)%Q)
    by (eapply Qle_trans; eauto).
  rewrite <- Zle_Qle in H. lia.
Qed.

(** X9.  The two kinds of recency key share one scale.  A feature dated by
    an epoch value of 10^12 milliseconds or more (9 September 2001) ranks
    strictly newer than every feature dated by its components with a year
    up to 9999, whatever that year: in a list that is newest first it never
    comes after such a feature. *)
Theorem epoch_dated_outranks_composite f g n y m d h :
  epoch_key f = Some n ->
  num_leb (NInt 1000000000000) n = true ->
  epoch_key g = None ->
  int_attr g "OCC_YEAR" = Some y -> month_attr g = Some m ->
  int_attr g "OCC_DAY" = Some d -> int_attr g "OCC_HOUR" = Some h ->
  (y <= 9999)%Z -> (m <= 12)%Z -> (d <= 31)%Z -> (h <= 23)%Z ->
  (exists kf kg,
     recency_key f = Ok kf /\ recency_key g = Ok kg
     /\ num_ltb kg kf = true)
  /\ forall l1 l2, newest_first (l1 ++ g :: l2) -> f ∉ l2.
Proof.
  intros Hf Hn Hg Hy Hm Hd Hh By Bm Bd Bh.
  assert (Kf : recency_key f = Ok n).
  { unfold recency_key. rewrite (sort_key_epoch _ _ Hf).
    cbn. by rewrite num_neg_involutive. }
  assert (Kg : recency_key g
               = Ok (NInt (y * 100000000 + m * 1000000 + d * 10000
                           + h * 100))).
  { unfold recency_key. rewrite (sort_key_composite _ _ _ _ _ Hg Hy Hm Hd Hh).
    cbn. by rewrite Z.opp_involutive. }
  assert (Hlt : num_ltb
                  (NInt (y * 100000000 + m * 1000000 + d * 10000 + h * 100))
                  n = true).
  { unfold num_ltb. cbn [num_value].
    apply (above_threshold_outranks 1000000000000); [lia | exact Hn]. }
  split; [by eexists _, _ |].
  intros l1 l2 Hs Hin.
  apply StronglySorted_after in Hs.
  rewrite Forall_forall in Hs. destruct (Hs _ Hin) as (kg & kf & Hkg & Hkf & Hle).
  rewrite Kg in Hkg. rewrite Kf in Hkf.
  apply Ok_inj in Hkg. apply Ok_inj in Hkf. subst kg kf.
  unfold num_ltb, fltb in Hlt. unfold num_leb in Hle.
  by rewrite Hle in Hlt.
Qed.

Lemma sort_key_text_year f y :
  epoch_key f = None ->
  attributes f !! "OCC_YEAR" = Some (SStr y) -> y <> "" ->
  exists e, sort_key f = Raise e.
Proof.
  intros He Hy Hne. unfold sort_key. cbv zeta.
  unfold epoch_key in He. rewrite He.
  unfold dict_get_or at 1. rewrite Hy. cbn [default id].
  assert (Ht : py_or (SStr y) (SInt 0) = SStr y).
  { unfold py_or. cbn. by destruct (String.eqb_spec y ""). }
  rewrite Ht. cbn [as_number].
  destruct (py_int _) as [z|e]; by eexists.
Qed.

(** X10.  The sort has no handler: one feature without an epoch date whose
    OCC_YEAR is a non-empty string makes the key computation raise, and
    with it the sort and the whole fetch, whatever the other features
    are. *)
Theorem text_year_fails_the_fetch f y :
  epoch_key f = None ->
  attributes f !! "OCC_YEAR" = Some (SStr y) -> y <> "" ->
  (forall l, f ∈ l -> exists e, sort_features l = Raise e)
  /\ (forall endpoint_url where_strategies st st' all_features,
        try_strategies endpoint_url where_strategies [] st
        = (st', all_features) ->
        f ∈ all_features ->
        exists e, fetch_with endpoint_url where_strategies st
                  = (st', Raise e)).
Proof.
  intros He Hy Hne.
  assert (Hs : forall l, f ∈ l -> exists e, sort_features l = Raise e).
  { intros l Hin. unfold sort_features.
    destruct (with_keys_raises l f Hin) as [e ->];
      [by eapply sort_key_text_year | by eexists]. }
  split; [exact Hs |].
  intros url strategies st st' acc Ht Hin. unfold fetch_with. rewrite Ht.
  destruct (Hs _ Hin) as [e Hr]. exists e.
  destruct acc; [by apply elem_of_nil in Hin | by rewrite Hr].
Qed.

(** ** The pagination, continued *)

Lemma paginate_loop_ceiling fuel endpoint_url where_clause :
  page_size_respected ->
  forall offset all_features st st' acc how,
    (Z.of_nat (length all_features) < 100000)%Z ->
    paginate_loop fuel endpoint_url where_clause offset all_features st
    = Some (st', acc, how) ->
    (Z.of_nat (length acc) < 100000 + PAGE_SIZE)%Z.
Proof.
  intros Hps. induction fuel as [| fuel IH];
    intros offset all st st' acc how Hlen H; [done |].
  rewrite paginate_loop_S in H.
  destruct (http_get_json endpoint_url (page_params where_clause offset) st)
    as [st1 [data|e]] eqn:Eh.
  2: { assert (acc = all) as -> by congruence. unfold PAGE_SIZE. lia. }
  cbv zeta in H.
  apply http_get_json_loop_Ok in Eh as [_ (st0 & Ht)]. apply Hps in Ht.
  destruct (Z.eqb_spec (Z.of_nat (length (features data))) 0).
  { assert (acc = all) as -> by congruence. unfold PAGE_SIZE. lia. }
  assert (Hnew : (Z.of_nat (length (all ++ features data))
                  < 100000 + PAGE_SIZE)%Z)
    by (rewrite length_app; lia).
  destruct (Z.leb_spec 100000 (Z.of_nat (length (all ++ features data)))).
  { assert (acc = all ++ features data) as -> by congruence. exact Hnew. }
  destruct (no_more_flag data && _).
  { assert (acc = all ++ features data) as -> by congruence. exact Hnew. }
  by eapply IH.
Qed.

(** X11.  The safety limit of the pagination: when the service never sends
    more than PAGE_SIZE features in a page, a strategy accumulates fewer
    than 100000 + PAGE_SIZE features, however many the service has, and so
    does the list that [fetch_features] returns. *)
Theorem pagination_ceiling :
  page_size_respected ->
  (forall endpoint_url where_clause st st' acc how,
     paginate endpoint_url where_clause st = (st', acc, how) ->
     (Z.of_nat (length acc) < 100000 + PAGE_SIZE)%Z)
  /\ (forall endpoint_url theft_type st st' l,
        fetch_features endpoint_url theft_type st = (st', Ok l) ->
        (Z.of_nat (length l) < 100000 + PAGE_SIZE)%Z).
Proof.
  intros Hps.
  assert (Hp : forall endpoint_url where_clause st st' acc how,
            paginate endpoint_url where_clause st = (st', acc, how) ->
            (Z.of_nat (length acc) < 100000 + PAGE_SIZE)%Z).
  { intros url w st st' acc how H.
    pose proof (paginate_total url w st) as Ht. rewrite H in Ht.
    by eapply paginate_loop_ceiling in Ht. }
  split; [exact Hp |].
  assert (Ht : forall url strategies all st st' acc,
            (Z.of_nat (length all) < 100000 + PAGE_SIZE)%Z ->
            try_strategies url strategies all st = (st', acc) ->
            (Z.of_nat (length acc) < 100000 + PAGE_SIZE)%Z).
  { intros url strategies. induction strategies as [| [w d] rest IH];
      intros all st st' acc Hall H.
    - cbn in H. congruence.
    - rewrite try_strategies_cons in H.
      destruct (paginate url w st) as [[st1 acc1] how] eqn:E.
      apply Hp in E.
      destruct how; [destruct (0 <? length acc1)%nat |];
        [congruence | by eapply IH | by eapply IH]. }
  intros url tt st st' l. unfold fetch_features.
  destruct (index 0 "services/" url); [| done].
  destruct (discover_fields url st) as [st1 available].
  unfold fetch_with.
  destruct (try_strategies _ _ _ _) as [st2 acc] eqn:E.
  apply Ht in E; [| unfold PAGE_SIZE; cbn; lia].
  destruct acc as [| f acc]; intros H.
  - assert (l = []) as -> by congruence. unfold PAGE_SIZE. cbn. lia.
  - injection H as _ H. apply sort_features_Ok in H as [H _].
    by rewrite <- H.
Qed.

(** ** The strategies *)

(** X12.  Every filter that [build_where_clauses] builds compares a column
    that is among the available fields with the cutoff: OCC_YEAR with the
    cutoff year, OCC_DATE and REPORT_DATE with the cutoff in epoch
    milliseconds.  The list always ends with the unconditional "1=1", has
    between one and four strategies, and is that single strategy when none
    of the three columns is available. *)
Theorem build_where_clauses_columns theft_type available_fields :
  (forall w d,
     (w, d) ∈ build_where_clauses theft_type available_fields ->
     w = "1=1"
     \/ exists col v,
          col ∈ available_fields
          /\ w = col +:+ " >= " +:+ string_of_Z v
          /\ (col = "OCC_YEAR" /\ v = cutoff_year
              \/ (col = "OCC_DATE" \/ col = "REPORT_DATE") /\ v = cutoff_ms))
  /\ last (build_where_clauses theft_type available_fields)
     = Some ("1=1", "unfiltered (all records)")
  /\ 1 <= length (build_where_clauses theft_type available_fields) <= 4
  /\ ((forall col, col ∈ ["OCC_YEAR"; "OCC_DATE"; "REPORT_DATE"] ->
                   col ∉ available_fields) ->
      build_where_clauses theft_type available_fields
      = [("1=1", "unfiltered (all records)")]).
Proof.
  split; [| split; [| split]].
  - intros w d H. unfold build_where_clauses in H. cbv zeta in H.
    rewrite !elem_of_app in H. destruct H as [H | [H | [H | H]]].
    + case_bool_decide as E; [| by apply elem_of_nil in H].
      apply list_elem_of_singleton in H. injection H as -> _.
      right. exists "OCC_YEAR", cutoff_year. split; [done |].
      split; [reflexivity | by left].
    + case_bool_decide as E; [| by apply elem_of_nil in H].
      apply list_elem_of_singleton in H. injection H as -> _.
      right. exists "OCC_DATE", cutoff_ms. split; [done |].
      split; [reflexivity | right; split; [by left | done]].
    + case_bool_decide as E; [| by apply elem_of_nil in H].
      apply list_elem_of_singleton in H. injection H as -> _.
      right. exists "REPORT_DATE", cutoff_ms. split; [done |].
      split; [reflexivity | right; split; [by right | done]].
    + apply list_elem_of_singleton in H. injection H as -> _. by left.
  - unfold build_where_clauses. cbv zeta. rewrite !app_assoc.
    apply last_snoc.
  - unfold build_where_clauses. cbv zeta.
    repeat case_bool_decide; cbn [length app]; lia.
  - intros H. unfold build_where_clauses. cbv zeta.
    rewrite !bool_decide_eq_false_2; [done | | |]; apply H.
    + by right; right; left.
    + by right; left.
    + by left.
Qed.

(** ** A service out of reach *)

Lemma http_get_json_loop_unavailable remaining req :
  unavailable ->
  forall st, exists st' e,
    http_get_json_loop remaining req st = (st', Raise e).
Proof.
  intros Hu. induction remaining as [| n IH]; intros st; [by eexists _, _ |].
  cbn [http_get_json_loop]. specialize (Hu st req).
  destruct (transport st req) as [st1 a]. cbn [snd] in Hu.
  destruct a as [| | body].
  - destruct n; [by eexists _, _ | apply IH].
  - by eexists _, _.
  - rewrite Hu. destruct n; [by eexists _, _ | apply IH].
Qed.

Lemma try_strategies_unavailable endpoint_url :
  unavailable ->
  forall where_strategies st, exists st',
    try_strategies endpoint_url where_strategies [] st = (st', []).
Proof.
  intros Hu strategies.
  induction strategies as [| [w d] rest IH]; intros st; [by eexists |].
  rewrite try_strategies_cons.
  destruct (http_get_json_loop_unavailable MAX_RETRIES
              (Request endpoint_url (page_params w 0)) Hu st)
    as (st1 & e & H).
  rewrite (paginate_first_request_raises _ _ _ _ _ H). apply IH.
Qed.

Lemma fetch_features_unavailable endpoint_url theft_type st :
  unavailable ->
  index 0 "services/" endpoint_url <> None ->
  exists st', fetch_features endpoint_url theft_type st = (st', Ok []).
Proof.
  intros Hu Hi. unfold fetch_features.
  destruct (index 0 "services/" endpoint_url); [| done].
  destruct (discover_fields endpoint_url st) as [st1 available].
  unfold fetch_with.
  destruct (try_strategies_unavailable endpoint_url Hu
              (build_where_clauses theft_type
                 match available with
                 | [] => ["OCC_YEAR"; "OCC_DATE"; "REPORT_DATE"]
                 | _ :: _ => available
                 end) st1) as [st' ->].
  by eexists.
Qed.

(** ** The whole run *)

Lemma ENDPOINT_ITEMS_endpoints :
  ENDPOINT_ITEMS = [("auto", auto_endpoint); ("bike", bike_endpoint)].
Proof. vm_compute. reflexivity. Qed.

Lemma run_category_records ms theft_type endpoint_url :
  run_category ms (theft_type, endpoint_url)
  = MainState (fetch_features endpoint_url theft_type (service ms)).1
      (<[OUTPUT_DIR +:+ "/" +:+ theft_type +:+ "_thefts.json"
         := category_records theft_type endpoint_url (service ms)]>
         (files ms))
      (total_records ms
       + length (category_records theft_type endpoint_url (service ms))).
Proof.
  unfold run_category, category_records, save_json.
  destruct (fetch_features endpoint_url theft_type (service ms))
    as [st' fetched].
  cbn [fst snd].
  destruct (fetched ≫= _) as [s|e]; [done |].
  cbn [length]. by rewrite Nat.add_0_r.
Qed.

Lemma main_unfold st files0 :
  main st files0
  = (let st1 := (fetch_features auto_endpoint "auto" st).1 in
     let auto_records := category_records "auto" auto_endpoint st in
     let bike_records := category_records "bike" bike_endpoint st1 in
     ((fetch_features bike_endpoint "bike" st1).1,
      <[bike_file := bike_records]> (<[auto_file := auto_records]> files0),
      if (length auto_records + length bike_records =? 0)%nat
      then 1%Z else 0%Z)).
Proof.
  unfold main. rewrite ENDPOINT_ITEMS_endpoints. cbn [foldl].
  rewrite !run_category_records.
  cbn [service files total_records]. reflexivity.
Qed.

(** X13.  Whatever the service answers, [main] writes the two files of the
    run and no other: each holds the records of its category, or the empty
    array when the extraction or the transformation of that category
    raised, and the second category is processed from the service as the
    first left it.  The exit status is 1 exactly when both arrays are
    empty, and 0 otherwise. *)
Theorem main_writes_both_files st files0 :
  let st1 := (fetch_features auto_endpoint "auto" st).1 in
  let auto_records := category_records "auto" auto_endpoint st in
  let bike_records := category_records "bike" bike_endpoint st1 in
  exists st2 files' status,
    main st files0 = (st2, files', status)
    /\ files' !! auto_file = Some auto_records
    /\ files' !! bike_file = Some bike_records
    /\ (forall path,
          path <> auto_file -> path <> bike_file ->
          files' !! path = files0 !! path)
    /\ (status = 1%Z <-> auto_records = [] /\ bike_records = [])
    /\ (status = 0%Z <-> auto_records <> [] \/ bike_records <> []).
Proof.
  intros st1 auto_records bike_records.
  eexists _, _, _. split; [apply main_unfold |]. cbv zeta.
  fold st1. fold auto_records. fold bike_records.
  split; [| split; [| split; [| split]]].
  - rewrite lookup_insert_ne by done. apply lookup_insert_eq.
  - apply lookup_insert_eq.
  - intros path Ha Hb. by rewrite !lookup_insert_ne.
  - destruct auto_records, bike_records; cbn; split;
      try done; intros [? ?]; done.
  - destruct auto_records, bike_records; cbn;
      (split; [intros H; try done; first [by left | by right]
              | intros [H | H]; done]).
Qed.

(** X14.  When the service is out of reach (every attempt fails, is not
    JSON, or is an error payload), the fetch of an endpoint of the
    configuration raises nothing and returns the empty list, and [main]
    writes an empty array to both files and exits with status 1. *)
Theorem service_out_of_reach st files0 :
  unavailable ->
  (forall endpoint_url theft_type st,
     index 0 "services/" endpoint_url <> None ->
     exists st', fetch_features endpoint_url theft_type st = (st', Ok []))
  /\ exists st',
       main st files0
       = (st', <[bike_file := []]> (<[auto_file := []]> files0), 1%Z).
Proof.
  intros Hu. split; [intros; by apply fetch_features_unavailable |].
  rewrite main_unfold. cbv zeta. unfold category_records.
  destruct (fetch_features_unavailable auto_endpoint "auto" st Hu)
    as [st1 ->]; [by vm_compute |].
  cbn [fst snd].
  destruct (fetch_features_unavailable bike_endpoint "bike" st1 Hu)
    as [st2 ->]; [by vm_compute |].
  cbn [fst snd mbind result_bind process_features process_from
       clean_records initial_state length Nat.add Nat.eqb].
  by eexists.
Qed.

End Pipeline.

(** * The requests of a run *)

Section Requests.

Variable rn : Q -> pyfloat.
Variables cutoff_year cutoff_ms : Z.
Variable T : Type.
Variable tr : T -> request -> T * attempt.

Lemma http_get_json_loop_log remaining req :
  forall st log st' log' r,
    remaining <> 0 ->
    http_get_json_loop (T * list request) (logged tr) remaining req (st, log)
    = ((st', log'), r) ->
    exists n, 1 <= n <= remaining /\ log' = log ++ replicate n req.
Proof.
  induction remaining as [| m IH]; intros st log st' log' r Hne H; [done |].
  cbn [http_get_json_loop] in H. unfold logged at 1 in H. cbn [fst snd] in H.
  destruct (tr st req) as [st1 a].
  assert (Hrec : m <> 0 ->
            http_get_json_loop (T * list request) (logged tr) m req
              (st1, log ++ [req]) = (st', log', r) ->
            exists n, 1 <= n <= S m /\ log' = log ++ replicate n req).
  { intros Hm Hl. destruct (IH _ _ _ _ _ Hm Hl) as (n & Hn & ->).
    exists (S n). split; [lia | by rewrite <- app_assoc]. }
  assert (Hend : (st1, log ++ [req], r) = (st', log', r) ->
            exists n, 1 <= n <= S m /\ log' = log ++ replicate n req).
  { intros [= <- <-]. exists 1. split; [lia | done]. }
  destruct a as [| | body].
  - destruct m as [| m']; [| by apply Hrec].
    injection H as <- <- <-. by apply Hend.
  - injection H as <- <- <-. by apply Hend.
  - destruct (has_error body).
    + destruct m as [| m']; [| by apply Hrec].
      injection H as <- <- <-. by apply Hend.
    + injection H as <- <- <-. by apply Hend.
Qed.



Lemma page_request_mono endpoint_url filters filters' req :
  (forall w, w ∈ filters -> w ∈ filters') ->
  page_request endpoint_url filters req ->
  page_request endpoint_url filters' req.
Proof.
  intros Hsub [Hu (w & k & Hw & Hp)]. split; [done |].
  exists w, k. split; [by apply Hsub | done].
Qed.

Lemma paginate_loop_log fuel endpoint_url where_clause :
  forall k all_features st log st' log' acc how,
    paginate_loop (T * list request) (logged tr) fuel endpoint_url
      where_clause (PAGE_SIZE * Z.of_nat k) all_features (st, log)
    = Some ((st', log'), acc, how) ->
    exists new,
      log' = log ++ new
      /\ Forall (page_request endpoint_url [where_clause]) new.
Proof.
  induction fuel as [| fuel IH];
    intros k all st log st' log' acc how H; [done |].
  rewrite paginate_loop_S in H.
  destruct (http_get_json _ _ _ _ (st, log)) as [[st1 log1] r] eqn:Eh.
  apply http_get_json_loop_log in Eh as (n & _ & ->); [| done].
  assert (Hreq : Forall (page_request endpoint_url [where_clause])
                   (replicate n
                      (Request endpoint_url
                         (page_params where_clause
                            (PAGE_SIZE * Z.of_nat k))))).
  { apply Forall_replicate. split; [done |].
    exists where_clause, k. split; [by left | done]. }
  destruct r as [data | e].
  2: { injection H as <- <- _ _. by eexists. }
  cbv zeta in H.
  destruct (_ =? _)%Z; [injection H as <- <- _ _; by eexists |].
  destruct (_ <=? _)%Z; [injection H as <- <- _ _; by eexists |].
  destruct (_ && _); [injection H as <- <- _ _; by eexists |].
  replace (PAGE_SIZE * Z.of_nat k + PAGE_SIZE)%Z
    with (PAGE_SIZE * Z.of_nat (S k))%Z in H by lia.
  apply IH in H as (new & -> & Hnew).
  eexists. split; [by rewrite <- app_assoc |].
  apply Forall_app. by split.
Qed.

Lemma try_strategies_log endpoint_url where_strategies :
  forall all_features st log st' log' acc,
    try_strategies (T * list request) (logged tr) endpoint_url
      where_strategies all_features (st, log)
    = ((st', log'), acc) ->
    exists new,
      log' = log ++ new
      /\ Forall (page_request endpoint_url where_strategies.*1) new.
Proof.
  induction where_strategies as [| [w d] rest IH];
    intros all st log st' log' acc H.
  - injection H as <- <- _. exists []. by rewrite app_nil_r.
  - rewrite try_strategies_cons in H.
    pose proof (paginate_total (T * list request) (logged tr) endpoint_url w
                  (st, log)) as Hp.
    destruct (paginate _ _ endpoint_url w (st, log))
      as [[[st1 log1] acc1] how].
    apply (paginate_loop_log _ _ _ 0) in Hp as (new1 & -> & Hnew1).
    assert (Hfirst : Forall (page_request endpoint_url ((w, d) :: rest).*1)
                       new1).
    { eapply Forall_impl; [exact Hnew1 |]. intros req.
      apply page_request_mono. intros w' Hw'.
      apply list_elem_of_singleton in Hw' as ->. by left. }
    assert (Hrest : forall all1,
              try_strategies (T * list request) (logged tr) endpoint_url
                rest all1 (st1, log ++ new1) = (st', log', acc) ->
              exists new,
                log' = log ++ new
                /\ Forall (page_request endpoint_url ((w, d) :: rest).*1)
                     new).
    { intros all1 Hr. apply IH in Hr as (new & -> & Hnew).
      eexists. split; [by rewrite <- app_assoc |].
      apply Forall_app. split; [done |].
      eapply Forall_impl; [exact Hnew |]. intros req.
      apply page_request_mono. intros w' Hw'. by right. }
    destruct how as [| e]; [| by eapply Hrest].
    destruct (0 <? length acc1)%nat; [| by eapply Hrest].
    injection H as <- <- _. by eexists.
Qed.

Lemma discover_fields_log endpoint_url st log st' log' available_fields :
  discover_fields (T * list request) (logged tr) endpoint_url (st, log)
  = ((st', log'), available_fields) ->
  exists n,
    1 <= n <= MAX_RETRIES
    /\ log' = log ++ replicate n (Request endpoint_url probe_params).
Proof.
  unfold discover_fields. cbv zeta. fold probe_params.
  destruct (http_get_json _ _ _ _ (st, log)) as [[st1 log1] r] eqn:Eh.
  apply http_get_json_loop_log in Eh as (n & Hn & ->); [| done].
  intros H. exists n. split; [done |].
  destruct r as [data | e]; [| by injection H as <- <- _].
  destruct (features data); [| by injection H as <- <- _].
  destruct (mapM _ _); by injection H as <- <- _.
Qed.

Lemma build_where_clauses_filters theft_type available_fields w :
  w ∈ (build_where_clauses cutoff_year cutoff_ms theft_type
         available_fields).*1 ->
  w ∈ possible_filters cutoff_year cutoff_ms.
Proof.
  unfold build_where_clauses. cbv zeta. rewrite !fmap_app, !elem_of_app.
  unfold possible_filters. rewrite !elem_of_cons.
  intros [H | [H | [H | H]]].
  - case_bool_decide; [| by apply elem_of_nil in H].
    apply list_elem_of_singleton in H. by left.
  - case_bool_decide; [| by apply elem_of_nil in H].
    apply list_elem_of_singleton in H. by right; left.
  - case_bool_decide; [| by apply elem_of_nil in H].
    apply list_elem_of_singleton in H. by right; right; left.
  - apply list_elem_of_singleton in H. by right; right; right; left.
Qed.

(** X16.  The requests of a fetch, in the order sent.  When the URL does not
    contain "services/" the call raises before anything is sent.  Otherwise
    the fetch first sends the discovery probe, one to MAX_RETRIES times, and
    then only page requests: each goes to the endpoint, with one of the
    four possible filters and an offset that is a multiple of PAGE_SIZE. *)
Theorem fetch_features_requests endpoint_url theft_type st log st' log' r :
  fetch_features rn cutoff_year cutoff_ms (T * list request) (logged tr)
    endpoint_url theft_type (st, log)
  = ((st', log'), r) ->
  match index 0 "services/" endpoint_url with
  | None => log' = log /\ r = Raise IndexError
  | Some _ =>
      exists n pages,
        1 <= n <= MAX_RETRIES
        /\ log' = log ++ replicate n (Request endpoint_url probe_params)
                      ++ pages
        /\ Forall
             (page_request endpoint_url
                (possible_filters cutoff_year cutoff_ms))
             pages
  end.
Proof.
  unfold fetch_features.
  destruct (index 0 "services/" endpoint_url) as [i |];
    [| by intros [= <- <- <-]].
  destruct (discover_fields _ _ endpoint_url (st, log))
    as [[st1 log1] available] eqn:Ed.
  apply discover_fields_log in Ed as (n & Hn & ->).
  unfold fetch_with.
  destruct (try_strategies _ _ _ _ _ _) as [[st2 log2] acc] eqn:Et.
  apply try_strategies_log in Et as (pages & -> & Hpages).
  intros H. exists n, pages. split; [done |].
  split; [destruct acc; injection H as _ <- _; by rewrite <- app_assoc |].
  eapply Forall_impl; [exact Hpages |]. intros req.
  apply page_request_mono. intros w. apply build_where_clauses_filters.
Qed.

End Requests.

(** * Concrete runs *)

(** The runtime of the examples satisfies the hypotheses on [rn]. *)
Lemma rn_exact_mono (a b : Q) :
  (a <= b)%Q -> fleb (rn_exact a) (rn_exact b) = true.
Proof. intros H. apply Qle_bool_iff. by rewrite !Qred_correct. Qed.

Lemma rn_exact_int (q : Q) (z : Z) :
  (q == inject_Z z)%Q -> (Z.abs z <= 2 ^ 53)%Z ->
  rn_exact q = FFin (inject_Z z).
Proof.
  intros H _. unfold rn_exact. f_equal.
  rewrite (Qred_complete _ _ H). apply Qred_identity. apply Z.gcd_1_r.
Qed.

(** The Transformer and the Fetcher under the runtime of the examples, on
    2026-11-03: the cutoff is 2026-05-07. *)
Local Abbreviation transform :=
  (process_features rn_exact no_float_of_str any_float_repr 2026 2026 5).
Local Abbreviation normalize := (parse_date_string rn_exact 2026).
Local Abbreviation fetch := (fetch_features rn_exact 2026 1778155200000 nat).

(** ** C1: coordinates *)

Lemma transformer_coordinates_witness :
  exists s,
    transform [downtown; null_island; paris] "auto" = Ok s
    /\ Forall (fun r => in_box (r_lat r) (r_lng r) = true
                        /\ both_zero (r_lat r) (r_lng r) = false)
         (clean_records s)
    /\ discarded_coords s = 2.
Proof.
  eexists. split; [vm_compute; reflexivity |].
  pose proof (transformer_coordinates rn_exact rn_exact_mono rn_exact_int
                no_float_of_str any_float_repr 2026 2026 5
                [downtown; null_island; paris] "auto" _ eq_refl)
    as (H1 & _ & H3 & _).
  split; [exact H1 | exact H3].
Defined.

(** ** C2: a year that is not a number *)

(** C2.  For the feature [unknown_year], whose OCC_YEAR is the text
    "unknown" and whose coordinates are good, the window test takes its
    [except] branch and does not discard the record; the record is not kept
    either: the Transformer raises ValueError when it builds the record, and
    the records of the features around it are lost with it. *)
Theorem unparseable_year_is_not_kept :
  before_cutoff 2026 5 (resolved_year 2026 unknown_year) 6
  = Raise ValueError
  /\ window_check 2026 2026 5 unknown_year 6 = Ok false
  /\ transform [unknown_year] "auto" = Raise ValueError
  /\ transform [downtown; unknown_year; uptown] "auto" = Raise ValueError.
Proof. repeat split; vm_compute; reflexivity. Qed.

(** ** C6: a weekday name in the day field *)

(** C6.  For the feature [weekday_only], whose OCC_DAY is null and whose
    OCC_DOW is "Monday", the date degrades to its default, the window test
    passes, and the Transformer raises ValueError when it converts the day:
    the exception leaves [process_features], alone or in a batch. *)
Theorem weekday_in_day_field_raises :
  resolved_day weekday_only = SStr "Monday"
  /\ normalize (resolved_date weekday_only) (resolved_year 2026 weekday_only)
       (SInt 6) (resolved_day weekday_only) = Ok "2026-01-01"
  /\ window_check 2026 2026 5 weekday_only 6 = Ok false
  /\ transform [weekday_only] "auto" = Raise ValueError
  /\ transform [downtown; weekday_only; uptown] "auto" = Raise ValueError.
Proof. repeat split; vm_compute; reflexivity. Qed.

(** ** C3: a full page, then an empty one *)

Lemma pagination_witness :
  (http_get_json nat full_page_service auto_endpoint (page_params "1=1" 0) 0
   = (1, Ok (page_of (replicate 2000 blank) (Some (SBool true))))
   /\ Z.of_nat (length (replicate 2000 blank)) = PAGE_SIZE
   /\ http_get_json nat full_page_service auto_endpoint
        (page_params "1=1" PAGE_SIZE) 1
      = (2, Ok (page_of [] None)))
  /\ paginate nat full_page_service auto_endpoint "1=1" 0
     = (2, replicate 2000 blank, Break).
Proof.
  assert (H1 : http_get_json nat full_page_service auto_endpoint
                 (page_params "1=1" 0) 0
               = (1, Ok (page_of (replicate 2000 blank)
                           (Some (SBool true)))))
    by (vm_compute; reflexivity).
  assert (H2 : Z.of_nat (length (replicate 2000 blank)) = PAGE_SIZE)
    by (vm_compute; reflexivity).
  assert (H3 : http_get_json nat full_page_service auto_endpoint
                 (page_params "1=1" PAGE_SIZE) 1
               = (2, Ok (page_of [] None)))
    by (vm_compute; reflexivity).
  split; [by repeat split |].
  destruct (pagination_stops_exactly_when nat full_page_service)
    as (_ & _ & _ & H).
  exact (H auto_endpoint "1=1" 0 1 2 _ _ H1 H2 H3 eq_refl).
Defined.

(** ** C4: the filter is rejected, the fallback answers *)

Lemma strategy_fallback_witness :
  (http_get_json nat fallback_service auto_endpoint
     (page_params "OCC_YEAR >= 2026" 0) 0
   = (3, Raise RuntimeError)
   /\ http_get_json nat fallback_service auto_endpoint (page_params "1=1" 0) 3
      = (4, Ok (page_of ten None))
   /\ length ten = 10
   /\ Forall (fun f => is_ok (sort_key rn_exact f) = true) ten)
  /\ exists l,
       fetch_with rn_exact nat fallback_service auto_endpoint
         [("OCC_YEAR >= 2026", "year >= 2026");
          ("1=1", "unfiltered (all records)")] 0
       = (4, Ok l)
       /\ ten ≡ₚ l /\ length l = 10 /\ newest_first rn_exact l.
Proof.
  assert (H1 : http_get_json nat fallback_service auto_endpoint
                 (page_params "OCC_YEAR >= 2026" 0) 0
               = (3, Raise RuntimeError))
    by (vm_compute; reflexivity).
  assert (H2 : http_get_json nat fallback_service auto_endpoint
                 (page_params "1=1" 0) 3
               = (4, Ok (page_of ten None)))
    by (vm_compute; reflexivity).
  assert (Hk : Forall (fun f => is_ok (sort_key rn_exact f) = true) ten)
    by (repeat (constructor; [vm_compute; reflexivity |]); constructor).
  split; [by repeat split |].
  destruct (strategy_fallback rn_exact nat fallback_service)
    as (_ & _ & _ & _ & H & _).
  exact (proj1 (H auto_endpoint "OCC_YEAR >= 2026" "year >= 2026" []
                  "unfiltered (all records)" 0 3 [] 3 4 RuntimeError
                  (page_of ten None) H1
                  (rejected_nil nat fallback_service auto_endpoint [] 3)
                  H2 eq_refl eq_refl) Hk).
Defined.

(** Against the unamended claim: the first strategy's filter makes the
    service fail and the unconditional fallback answers ten features, one of
    which has the text "unknown" in OCC_YEAR.  The strategy loop accepts the
    ten features, and the sort that follows it raises TypeError: the Fetcher
    yields no feature. *)
Lemma fallback_with_text_year_raises :
  http_get_json nat text_year_service auto_endpoint
    (page_params "OCC_YEAR >= 2026" 0) 0
  = (3, Raise RuntimeError)
  /\ http_get_json nat text_year_service auto_endpoint
       (page_params "1=1" 0) 3
     = (4, Ok (page_of ten_with_text_year None))
  /\ length ten_with_text_year = 10
  /\ no_more_flag (page_of ten_with_text_year None) = true
  /\ try_strategies nat text_year_service auto_endpoint
       [("OCC_YEAR >= 2026", "year >= 2026");
        ("1=1", "unfiltered (all records)")] [] 0
     = (4, ten_with_text_year)
  /\ fetch_with rn_exact nat text_year_service auto_endpoint
       [("OCC_YEAR >= 2026", "year >= 2026");
        ("1=1", "unfiltered (all records)")] 0
     = (4, Raise TypeError)
  /\ fetch text_year_service auto_endpoint "auto" 0 = (5, Raise TypeError).
Proof. repeat split; vm_compute; reflexivity. Qed.

(** ** C5: ten features, newest first *)

Lemma fetched_features_newest_first_witness :
  fetch fallback_service auto_endpoint "auto" 0 = (5, Ok ten_newest_first)
  /\ newest_first rn_exact ten_newest_first.
Proof.
  assert (H1 : fetch fallback_service auto_endpoint "auto" 0
               = (5, Ok ten_newest_first))
    by (vm_compute; reflexivity).
  split; [exact H1 |].
  destruct (fetched_features_newest_first rn_exact 2026 1778155200000 nat
              fallback_service) as (H & _).
  exact (H auto_endpoint "auto" 0 5 ten_newest_first H1).
Defined.

(** ** C10: the service drops after the first page *)

Lemma last_strategy_partial_results_witness :
  (discover_fields nat dropping_service auto_endpoint 0
   = (1, (map_to_list (attributes downtown)).*1)
   /\ rejected nat dropping_service auto_endpoint
        [("OCC_YEAR >= 2026", "year >= 2026")] [] 1 [downtown; uptown] 5
   /\ paginate nat dropping_service auto_endpoint "1=1" 5
      = (9, [downtown; uptown], Raised OSError)
   /\ [downtown; uptown] <> [])
  /\ fetch dropping_service auto_endpoint "auto" 0
     = (9, sort_features rn_exact [downtown; uptown])
  /\ sort_features rn_exact [downtown; uptown] = Ok [uptown; downtown].
Proof.
  assert (H0 : discover_fields nat dropping_service auto_endpoint 0
               = (1, (map_to_list (attributes downtown)).*1))
    by (vm_compute; reflexivity).
  assert (Hp : paginate nat dropping_service auto_endpoint
                 "OCC_YEAR >= 2026" 1
               = (5, [downtown; uptown], Raised OSError))
    by (vm_compute; reflexivity).
  assert (Hr : rejected nat dropping_service auto_endpoint
                 [("OCC_YEAR >= 2026", "year >= 2026")] [] 1
                 [downtown; uptown] 5).
  { eapply rejected_cons; [exact Hp | discriminate | constructor]. }
  assert (H1 : paginate nat dropping_service auto_endpoint "1=1" 5
               = (9, [downtown; uptown], Raised OSError))
    by (vm_compute; reflexivity).
  assert (H2 : [downtown; uptown] <> []) by discriminate.
  split; [by repeat split |].
  split; [| vm_compute; reflexivity].
  destruct (last_strategy_partial_results_returned rn_exact 2026
              1778155200000 nat dropping_service) as (_ & _ & _ & H).
  refine (H auto_endpoint "auto" 0 1 _
            [("OCC_YEAR >= 2026", "year >= 2026")] [downtown; uptown] 5 9
            [downtown; uptown] OSError _ H0 _ Hr H1 H2).
  - vm_compute. discriminate.
  - vm_compute. reflexivity.
Defined.

(** ** C7: identifiers that repeat *)

(** Two raw features with the same EVENT_UNIQUE_ID become two records with
    the same id. *)
Lemma repeated_identifier_repeats_id :
  exists s,
    transform [downtown; downtown] "auto" = Ok s
    /\ r_id <$> clean_records s = ["auto-GO-2026101"; "auto-GO-2026101"]
    /\ ~ NoDup (r_id <$> clean_records s).
Proof.
  eexists. split; [vm_compute; reflexivity |].
  split; [vm_compute; reflexivity |].
  intros H. apply NoDup_cons in H as [H _]. apply H. by left.
Qed.

Lemma record_ids_prefixed_witness :
  exists s,
    transform [downtown; null_island; uptown] "auto" = Ok s
    /\ r_id <$> clean_records s = ["auto-GO-2026101"; "auto-GO-2026102"]
    /\ NoDup (r_id <$> clean_records s).
Proof.
  eexists. split; [vm_compute; reflexivity |].
  split; [vm_compute; reflexivity |].
  destruct (record_ids_prefixed rn_exact no_float_of_str any_float_repr
              2026 2026 5 [downtown; null_island; uptown] "auto" _ eq_refl)
    as (_ & H & _).
  apply H.
  - repeat constructor; by vm_compute.
  - apply (bool_decide_unpack _). vm_compute. reflexivity.
Defined.

(** ** C9: a raw date beyond the year 9999 *)

(** The raw date 10^15 is numeric and greater than 1,000,000,000; as epoch
    milliseconds it is a day of the year 33658.  [parse_date_string] does
    not return its rendering: it returns the string built from the year,
    month and day. *)
Lemma undecodable_epoch_not_rendered :
  normalize (SInt (10 ^ 15)) (SInt 2024) (SInt 3) (SInt 15)
  = Ok "2024-03-15"
  /\ utc_rendering (10 ^ 15) = "33658-09-27"
  /\ normalize (SInt (10 ^ 15)) (SInt 2024) (SInt 3) (SInt 15)
     <> Ok (utc_rendering (10 ^ 15)).
Proof.
  split; [vm_compute; reflexivity |].
  split; [vm_compute; reflexivity |].
  vm_compute. discriminate.
Qed.

Lemma parse_date_string_cascade_witness :
  (undecodable rn_exact (SInt (10 ^ 15))
   /\ str_prefix10 (SInt (10 ^ 15)) = None
   /\ py_int (SInt 2024) = Ok 2024%Z /\ py_int (SInt 3) = Ok 3%Z
   /\ py_int (SInt 15) = Ok 15%Z)
  /\ normalize (SInt (10 ^ 15)) (SInt 2024) (SInt 3) (SInt 15)
     = Ok "2024-03-15".
Proof.
  assert (H1 : undecodable rn_exact (SInt (10 ^ 15))).
  { right. exists (FFin (inject_Z (10 ^ 12))), ValueError.
    repeat split; [vm_compute; reflexivity .. | by left]. }
  split; [by repeat split |].
  destruct (parse_date_string_cascade rn_exact rn_exact_int 2026) as (H & _).
  destruct (H (SInt (10 ^ 15)) (SInt 2024) (SInt 3) (SInt 15))
    as (_ & _ & H3 & _).
  exact (H3 H1 eq_refl 2024%Z 3%Z 15%Z eq_refl eq_refl eq_refl).
Defined.

(** ** The retry loop *)

Lemma http_get_json_returns_clean_body_witness :
  http_get_json nat full_page_service auto_endpoint
    (page_params "1=1" PAGE_SIZE) 1
  = (2, Ok (page_of [] None))
  /\ has_error (page_of [] None) = false
  /\ exists st0,
       full_page_service st0
         (Request auto_endpoint (page_params "1=1" PAGE_SIZE))
       = (2, Body (page_of [] None)).
Proof.
  assert (H : http_get_json nat full_page_service auto_endpoint
                (page_params "1=1" PAGE_SIZE) 1
              = (2, Ok (page_of [] None)))
    by (vm_compute; reflexivity).
  split; [exact H |].
  exact (http_get_json_returns_clean_body nat full_page_service _ _ _ _ _ H).
Defined.


(** ** The Transformer on a mixed batch *)

Lemma process_features_accounting_witness :
  exists s,
    transform [downtown; march; null_island] "auto" = Ok s
    /\ length (clean_records s) + discarded_coords s + discarded_date s = 3
    /\ discarded_other s = 0.
Proof.
  destruct (transform [downtown; march; null_island] "auto") as [s | e] eqn:E;
    [| by vm_compute in E].
  exists s. split; [reflexivity |].
  exact (process_features_accounting rn_exact no_float_of_str any_float_repr
           2026 2026 5 [downtown; march; null_island] "auto" s E).
Defined.

Lemma raising_feature_aborts_batch_witness :
  exists s,
    transform [downtown] "auto" = Ok s
    /\ process_feature rn_exact no_float_of_str any_float_repr 2026 2026 5
         "auto" s unknown_year
       = Raise ValueError
    /\ transform ([downtown] ++ unknown_year :: [uptown]) "auto"
       = Raise ValueError.
Proof.
  destruct (transform [downtown] "auto") as [s | e] eqn:E;
    [| by vm_compute in E].
  assert (H : process_feature rn_exact no_float_of_str any_float_repr
                2026 2026 5 "auto" s unknown_year
              = Raise ValueError)
    by (vm_compute; reflexivity).
  exists s. split; [reflexivity |]. split; [exact H |].
  exact (raising_feature_aborts_batch rn_exact no_float_of_str any_float_repr
           2026 2026 5 "auto" [downtown] unknown_year [uptown] s ValueError
           E H).
Defined.

Lemma record_texts_stripped_witness :
  exists s,
    transform [padded; march; null_island] "auto" = Ok s
    /\ (r_neighbourhood <$> clean_records s) = ["Annex (95)"]
    /\ Forall
         (fun r =>
            r_type r = "auto"
            /\ trimmed (r_neighbourhood r) /\ trimmed (r_premiseType r)
            /\ trimmed (r_status r)
            /\ exists f,
                 f ∈ [padded; march; null_island]
                 /\ r_neighbourhood r
                    = strip (py_str any_float_repr (resolved_neighbourhood f))
                 /\ r_premiseType r
                    = strip (py_str any_float_repr (resolved_premise f))
                 /\ r_status r
                    = strip (py_str any_float_repr (resolved_status f)))
         (clean_records s).
Proof.
  destruct (transform [padded; march; null_island] "auto") as [s | e] eqn:E;
    [| by vm_compute in E].
  exists s. split; [reflexivity |].
  split; [vm_compute in E; apply Ok_inj in E; subst s; reflexivity |].
  exact (record_texts_stripped rn_exact no_float_of_str any_float_repr
           2026 2026 5 [padded; march; null_island] "auto" s E).
Defined.

Lemma undated_feature_witness :
  present (attributes undated) "OCC_YEAR" = None
  /\ present (attributes undated) "OCC_MONTH" = None
  /\ bad_coords rn_exact no_float_of_str undated = false
  /\ exists s',
       process_feature rn_exact no_float_of_str any_float_repr 2026 2026 5
         "auto" initial_state undated
       = Ok s'
       /\ s' = skip_out_of_window initial_state.
Proof.
  assert (Hy : present (attributes undated) "OCC_YEAR" = None)
    by (vm_compute; reflexivity).
  assert (Hm : present (attributes undated) "OCC_MONTH" = None)
    by (vm_compute; reflexivity).
  assert (Hb : bad_coords rn_exact no_float_of_str undated = false)
    by (vm_compute; reflexivity).
  split; [exact Hy |]. split; [exact Hm |]. split; [exact Hb |].
  destruct (process_feature rn_exact no_float_of_str any_float_repr
              2026 2026 5 "auto" initial_state undated) as [s' | e] eqn:E;
    [| by vm_compute in E].
  exists s'. split; [reflexivity |].
  exact (undated_feature_is_january_of_this_year rn_exact no_float_of_str
           any_float_repr 2026 2026 5 "auto" initial_state undated s'
           Hy Hm Hb E).
Defined.

(** ** The sort *)

Lemma sort_features_idempotent_witness :
  sort_features rn_exact ten = Ok ten_newest_first
  /\ sort_features rn_exact ten_newest_first = Ok ten_newest_first.
Proof.
  assert (H : sort_features rn_exact ten = Ok ten_newest_first)
    by (vm_compute; reflexivity).
  split; [exact H |].
  exact (sort_features_idempotent rn_exact ten ten_newest_first H).
Defined.

Lemma epoch_dated_outranks_composite_witness :
  (epoch_key stamped = Some (NInt 1780000000000)
   /\ epoch_key downtown = None)
  /\ exists kf kg,
       recency_key rn_exact stamped = Ok kf
       /\ recency_key rn_exact downtown = Ok kg
       /\ num_ltb kg kf = true.
Proof.
  assert (Hf : epoch_key stamped = Some (NInt 1780000000000))
    by (vm_compute; reflexivity).
  assert (Hn : num_leb (NInt 1000000000000) (NInt 1780000000000) = true)
    by (vm_compute; reflexivity).
  assert (Hg : epoch_key downtown = None) by (vm_compute; reflexivity).
  assert (Hy : int_attr downtown "OCC_YEAR" = Some 2026%Z)
    by (vm_compute; reflexivity).
  assert (Hm : month_attr downtown = Some 6%Z) by (vm_compute; reflexivity).
  assert (Hd : int_attr downtown "OCC_DAY" = Some 3%Z)
    by (vm_compute; reflexivity).
  assert (Hh : int_attr downtown "OCC_HOUR" = Some 14%Z)
    by (vm_compute; reflexivity).
  split; [by split |].
  refine (proj1 (epoch_dated_outranks_composite rn_exact stamped downtown
                   _ _ _ _ _ Hf Hn Hg Hy Hm Hd Hh _ _ _ _)); lia.
Defined.

Lemma text_year_fails_the_fetch_witness :
  (epoch_key unknown_year = None
   /\ attributes unknown_year !! "OCC_YEAR" = Some (SStr "unknown"))
  /\ exists e, sort_features rn_exact [downtown; unknown_year] = Raise e.
Proof.
  assert (He : epoch_key unknown_year = None) by (vm_compute; reflexivity).
  assert (Hy : attributes unknown_year !! "OCC_YEAR" = Some (SStr "unknown"))
    by (vm_compute; reflexivity).
  assert (Hne : "unknown" <> "") by discriminate.
  split; [by split |].
  apply (proj1 (text_year_fails_the_fetch rn_exact nat fallback_service
                  unknown_year "unknown" He Hy Hne)).
  apply elem_of_cons. right. apply elem_of_cons. by left.
Defined.

(** ** The pagination and the requests *)

Lemma pagination_ceiling_witness :
  page_size_respected nat dropping_service
  /\ exists st' acc how,
       paginate nat dropping_service auto_endpoint "1=1" 0 = (st', acc, how)
       /\ (Z.of_nat (length acc) < 100000 + PAGE_SIZE)%Z.
Proof.
  assert (Hps : page_size_respected nat dropping_service).
  { intros st req st' data. unfold dropping_service.
    destruct (String.eqb _ _); [| discriminate].
    intros [= _ <-]. vm_compute. discriminate. }
  split; [exact Hps |].
  destruct (paginate nat dropping_service auto_endpoint "1=1" 0)
    as [[st' acc] how] eqn:E.
  exists st', acc, how. split; [reflexivity |].
  exact (proj1 (pagination_ceiling rn_exact 2026 1778155200000 nat
                  dropping_service Hps) _ _ _ _ _ _ E).
Defined.

Lemma fetch_features_requests_witness :
  exists st' log' r,
    fetch_features rn_exact 2026 1778155200000 (nat * list request)
      (logged fallback_service) auto_endpoint "auto" (0, [])
    = ((st', log'), r)
    /\ exists n pages,
         1 <= n <= MAX_RETRIES
         /\ log' = [] ++ replicate n (Request auto_endpoint probe_params)
                       ++ pages
         /\ Forall
              (page_request auto_endpoint
                 (possible_filters 2026 1778155200000))
              pages.
Proof.
  destruct (fetch_features rn_exact 2026 1778155200000 (nat * list request)
              (logged fallback_service) auto_endpoint "auto" (0, []))
    as [[st' log'] r] eqn:E.
  exists st', log', r. split; [reflexivity |].
  exact (fetch_features_requests rn_exact 2026 1778155200000 nat
           fallback_service auto_endpoint "auto" 0 [] st' log' r E).
Defined.

(** ** A run against a service that never answers *)

Lemma service_out_of_reach_witness :
  unavailable nat dead_service
  /\ exists st',
       main rn_exact no_float_of_str any_float_repr 2026 2026 5
         1778155200000 nat dead_service 0 ∅
       = (st', <[bike_file := []]> (<[auto_file := []]> ∅), 1%Z).
Proof.
  assert (Hu : unavailable nat dead_service) by (intros st req; exact I).
  split; [exact Hu |].
  exact (proj2 (service_out_of_reach rn_exact no_float_of_str any_float_repr
                  2026 2026 5 1778155200000 nat dead_service 0 ∅ Hu)).
Defined.
